(** * life_expectancy: the preprocessing and feature pipeline of
      [life_expectancy.ipynb]

    A shallow embedding of the notebook's [DataPreprocessor] class, of
    [add_features] and of the cell that prepares, scales, trains and
    predicts.  Numbers are IEEE binary64 values (pandas' [float64]), so
    missing values are the float NaN, exactly as [pd.isna] sees them.

    Conventions of the embedding:
    - a [DataFrame] is its ordered column index and its list of rows, a row
      being a finite map from column name to cell;
    - a Python exception is a [Raise] result; methods of the preprocessor
      run in a state-and-exception monad over the object's two attributes;
    - Python dictionaries keep insertion order, so they are association
      lists updated in place. *)

From Stdlib Require Import Floats Uint63.
From stdpp Require Import gmap strings list.

Open Scope string_scope.

(** ** Cells, exceptions, results *)

Inductive cell :=
  | Num (x : float)
  | Str (s : string).

(** [np.nan] *)
Definition NaN : cell := Num nan.

(** [pd.isna] on one cell. *)
Definition isna (c : cell) : bool :=
  match c with
  | Num x => is_nan x
  | Str _ => false
  end.

Inductive exn :=
  | KeyError (key : string)
  | TypeError
  | ValueError.

Inductive result (A : Type) :=
  | Ok (a : A)
  | Raise (e : exn).
Arguments Ok {A} a.
Arguments Raise {A} e.

#[global] Instance result_ret : MRet result := fun _ a => Ok a.
#[global] Instance result_bind : MBind result := fun _ _ f m =>
  match m with
  | Ok a => f a
  | Raise e => Raise e
  end.

Definition from_option {A} (e : exn) (o : option A) : result A :=
  match o with
  | Some a => Ok a
  | None => Raise e
  end.

(** ** Python dictionaries with string keys *)

Module PyDict.
Definition t (V : Type) := list (string * V).

Definition empty {V} : t V := [].

Fixpoint get {V} (k : string) (d : t V) : option V :=
  match d with
  | [] => None
  | (k', v) :: d' => if String.eqb k' k then Some v else get k d'
  end.

(** [d[k] = v]: an existing key keeps its position. *)
Fixpoint set {V} (k : string) (v : V) (d : t V) : t V :=
  match d with
  | [] => [(k, v)]
  | (k', v') :: d' =>
      if String.eqb k' k then (k', v) :: d' else (k', v') :: set k v d'
  end.

Definition keys {V} (d : t V) : list string := map fst d.
End PyDict.

(** ** Data frames *)

Record DataFrame := mkFrame {
  columns : list string;
  rows : list (gmap string cell)
}.

Definition has_column (df : DataFrame) (col : string) : bool :=
  existsb (String.eqb col) (columns df).

(** [df[col]] read as a list of cells. *)
Definition getcol (df : DataFrame) (col : string) : result (list cell) :=
  if has_column df col
  then mapM (fun r : gmap string cell => from_option (KeyError col) (r !! col)) (rows df)
  else Raise (KeyError col).

(** [df[col] = values]: a new column is appended to the index. *)
Definition setcol (df : DataFrame) (col : string) (values : list cell) : DataFrame :=
  {| columns := if has_column df col then columns df else columns df ++ [col];
     rows := zip_with (fun (r : gmap string cell) v => <[col := v]> r) (rows df) values |}.

(** [df.drop(col, axis=1)]; the KeyError of [drop] carries pandas' message
    about the label, not the bare label. *)
Definition drop_column (df : DataFrame) (col : string) : result DataFrame :=
  if has_column df col
  then Ok {| columns := List.filter (fun c => negb (String.eqb c col)) (columns df);
             rows := map (delete col) (rows df) |}
  else Raise (KeyError (String.append "['" (String.append col "'] not found in axis"))).

(** ** Aggregations on float64 values *)

Definition count_float (n : nat) : float :=
  PrimFloat.of_uint63 (Uint63.of_Z (Z.of_nat n)).

Definition dropna (l : list float) : list float :=
  List.filter (fun x => negb (is_nan x)) l.

Definition fsum (l : list float) : float :=
  fold_left PrimFloat.add l 0%float.

(** [Series.mean()], missing values skipped; NaN when nothing is left.
    (pandas accumulates with a compensated sum; nothing below depends on
    the rounding of the accumulation.) *)
Definition nanmean (l : list float) : float :=
  match dropna l with
  | [] => nan
  | xs => (fsum xs / count_float (length xs))%float
  end.

Fixpoint insert_sorted (x : float) (l : list float) : list float :=
  match l with
  | [] => [x]
  | y :: l' => if (x <=? y)%float then x :: l else y :: insert_sorted x l'
  end.

Definition fsort (l : list float) : list float :=
  fold_right insert_sorted [] l.

(** [Series.median()], missing values skipped; NaN when nothing is left. *)
Definition nanmedian (l : list float) : float :=
  let xs := fsort (dropna l) in
  let n := length xs in
  match n with
  | O => nan
  | _ =>
      if Nat.even n
      then ((nth (n / 2 - 1) xs nan + nth (n / 2) xs nan) / 2)%float
      else nth (n / 2) xs nan
  end.

(** A numeric aggregation over cells raises on text. *)
Definition as_float (c : cell) : result float :=
  match c with
  | Num x => Ok x
  | Str _ => Raise TypeError
  end.

Definition as_floats (l : list cell) : result (list float) := mapM as_float l.

(** ** Series indexed by group key *)

(** Equality of index labels.  NaN is equal to no label. *)
Definition cell_eqb (a b : cell) : bool :=
  match a, b with
  | Num x, Num y => (x =? y)%float
  | Str s, Str t => String.eqb s t
  | _, _ => false
  end.

Definition Series := list (cell * float).

(** [series.get(key, default)] *)
Fixpoint series_lookup (s : Series) (key : cell) : option float :=
  match s with
  | [] => None
  | (k, v) :: s' => if cell_eqb k key then Some v else series_lookup s' key
  end.

Definition series_get (s : Series) (key : cell) (dflt : float) : float :=
  default dflt (series_lookup s key).

(** ** [data.groupby('Country')[col].mean()] and [data[col].median()] *)

Definition notna (c : cell) : bool := negb (isna c).

(** The distinct labels of a list, by first occurrence.  (pandas sorts the
    group index; [series_get] does not depend on its order.) *)
Fixpoint unique (l : list cell) : list cell :=
  match l with
  | [] => []
  | k :: l' => k :: List.filter (fun k' => negb (cell_eqb k k')) (unique l')
  end.

(** The values of the rows whose key is [k]. *)
Definition group_values (keys vals : list cell) (k : cell) : list cell :=
  map snd (List.filter (fun p : cell * cell => cell_eqb (fst p) k) (zip keys vals)).

(** Rows with a missing key belong to no group. *)
Definition groupby_mean (df : DataFrame) (col : string) : result Series :=
  keys ← getcol df "Country";
  vals ← getcol df col;
  mapM (fun k => xs ← as_floats (group_values keys vals k); mret (k, nanmean xs))
       (unique (List.filter notna keys)).

Definition median (df : DataFrame) (col : string) : result float :=
  vals ← getcol df col;
  xs ← as_floats vals;
  mret (nanmedian xs).

(** ** The preprocessor object and its methods *)

Record DataPreprocessor := mkPre {
  means_by_country : PyDict.t Series;
  global_medians : PyDict.t float
}.

(** [DataPreprocessor.__init__] *)
Definition new_preprocessor : DataPreprocessor :=
  {| means_by_country := PyDict.empty; global_medians := PyDict.empty |}.

(** A method takes [self], may raise, and leaves [self] as it is at that
    moment (attribute writes made before an exception persist). *)
Definition Method (A : Type) : Type := DataPreprocessor -> result A * DataPreprocessor.

#[global] Instance method_ret : MRet Method := fun _ a self => (Ok a, self).
#[global] Instance method_bind : MBind Method := fun _ _ f m self =>
  match m self with
  | (Ok a, self') => f a self'
  | (Raise e, self') => (Raise e, self')
  end.

Definition get_self : Method DataPreprocessor := fun self => (Ok self, self).

Definition lift {A} (r : result A) : Method A := fun self => (r, self).

(** [self.means_by_country[col] = v] *)
Definition set_means (col : string) (v : Series) : Method unit := fun self =>
  (Ok tt, {| means_by_country := PyDict.set col v (means_by_country self);
             global_medians := global_medians self |}).

(** [self.global_medians[col] = v] *)
Definition set_median (col : string) (v : float) : Method unit := fun self =>
  (Ok tt, {| means_by_country := means_by_country self;
             global_medians := PyDict.set col v (global_medians self) |}).

Fixpoint for_each {A} (l : list A) (body : A -> Method unit) : Method unit :=
  match l with
  | [] => mret tt
  | a :: l' => body a ≫= fun _ => for_each l' body
  end.

Fixpoint foldM {A B} (body : B -> A -> Method B) (l : list A) (b : B) : Method B :=
  match l with
  | [] => mret b
  | a :: l' => b' ← body b a; foldM body l' b'
  end.

(** [data.isna().any()] at one column. *)
Definition isna_any (data : DataFrame) (col : string) : bool :=
  existsb (fun r : gmap string cell =>
             match r !! col with Some c => isna c | None => false end) (rows data).

(** [data.columns[data.isna().any()].tolist()] *)
Definition cols_with_na (data : DataFrame) : list string :=
  List.filter (isna_any data) (columns data).

Definition fit_column (data : DataFrame) (col : string) : Method unit :=
  m ← lift (groupby_mean data col);
  set_means col m ≫= fun _ =>
  md ← lift (median data col);
  set_median col md.

Definition fit (data : DataFrame) : Method unit :=
  for_each (cols_with_na data) (fit_column data).

(** The lambda applied to each row in [transform]. *)
Definition fill (col : string) (row : gmap string cell) : Method cell :=
  c ← lift (from_option (KeyError col) (row !! col));
  if isna c then
    self ← get_self;
    ser ← lift (from_option (KeyError col) (PyDict.get col (means_by_country self)));
    k ← lift (from_option (KeyError "Country") (row !! "Country"));
    med ← lift (from_option (KeyError col) (PyDict.get col (global_medians self)));
    mret (Num (series_get ser k med))
  else mret c.

(** One turn of the loop: [data[col] = data.apply(..., axis=1)]. *)
Definition impute_column (data : DataFrame) (col : string) : Method DataFrame :=
  newcol ← mapM (fill col) (rows data);
  mret (setcol data col newcol).

(** [{'Developing': 0, 'Developed': 1}] through [Series.map]: a value that
    is no key of the dictionary becomes NaN. *)
Definition status_map (c : cell) : cell :=
  match c with
  | Str s =>
      if String.eqb s "Developing" then Num 0
      else if String.eqb s "Developed" then Num 1
      else NaN
  | Num _ => NaN
  end.

Definition encode_status (data : DataFrame) : result DataFrame :=
  st ← getcol data "Status";
  mret (setcol data "Status" (map status_map st)).

Definition transform (data : DataFrame) : Method DataFrame :=
  self ← get_self;
  data ← foldM impute_column (PyDict.keys (means_by_country self)) data;
  lift (encode_status data).

Definition fit_transform (data : DataFrame) : Method DataFrame :=
  fit data ≫= fun _ => transform data.

(** ** Feature synthesis *)

(** [series.replace(0, np.nan)] on one cell ([0 == -0.0] holds). *)
Definition replace_zero (c : cell) : cell :=
  match c with
  | Num x => if (x =? 0)%float then NaN else c
  | Str _ => c
  end.

(** [a / b] on one pair of cells. *)
Definition truediv (a b : cell) : result cell :=
  match a, b with
  | Num x, Num y => Ok (Num (x / y)%float)
  | _, _ => Raise TypeError
  end.

Fixpoint zipM {A B C} (f : A -> B -> result C) (l : list A) (k : list B) : result (list C) :=
  match l, k with
  | a :: l', b :: k' => c ← f a b; cs ← zipM f l' k'; mret (c :: cs)
  | _, _ => mret []
  end.

(** [df[num] / df[den].replace(0, np.nan)] *)
Definition ratio (df : DataFrame) (num den : string) : result (list cell) :=
  a ← getcol df num;
  b ← getcol df den;
  zipM truediv a (map replace_zero b).

Definition add_features (df : DataFrame) : result DataFrame :=
  v ← ratio df "GDP" "Population";
  let df := setcol df "GDP_per_capita" v in
  v ← ratio df "under-five deaths" "infant deaths";
  let df := setcol df "Child_mortality_ratio" v in
  v ← ratio df "Total expenditure" "GDP";
  let df := setcol df "Health_expenditure_per_GDP" v in
  mret df.


(** ** The preparation, training and prediction cells

    The splitter, the scaler, the regressor and the scorer are library
    objects; the cells are embedded over them. *)

Definition Matrix := list (list float).

Record Collaborators := mkCollab {
  scaler : Type;
  regressor : Type;
  (** [train_test_split(X, y, test_size=0.2, random_state=42)] *)
  train_test_split :
    DataFrame -> list cell -> (DataFrame * DataFrame) * (list cell * list cell);
  (** [StandardScaler().fit(X)] and [scaler.transform(X)] *)
  scaler_fit : DataFrame -> result scaler;
  scaler_transform : scaler -> DataFrame -> result Matrix;
  (** [lgb_model.fit(X, y, eval_set=[(X_val, y_val)])], [lgb_model.predict(X)] *)
  lgb_fit : Matrix -> list cell -> Matrix -> list cell -> result regressor;
  lgb_predict : regressor -> Matrix -> result (list float);
  r2_score : list cell -> list float -> result float
}.

(** [pd.DataFrame({'Life expectancy': test_pred})] *)
Definition submission_frame (test_pred : list float) : DataFrame :=
  {| columns := ["Life expectancy"];
     rows := map (fun p => {[ "Life expectancy" := Num p ]}) test_pred |}.

Section Workflow.
Variable ext : Collaborators.

(** From [# Preprocess] to [# Drop Country column]. *)
Definition prepare (X_train X_val test_data : DataFrame)
  : Method (DataFrame * DataFrame * DataFrame) :=
  X_train ← fit_transform X_train;
  X_val ← transform X_val;
  X_test ← transform test_data;
  X_train ← lift (add_features X_train);
  X_val ← lift (add_features X_val);
  X_test ← lift (add_features X_test);
  X_train ← lift (drop_column X_train "Country");
  X_val ← lift (drop_column X_val "Country");
  X_test ← lift (drop_column X_test "Country");
  mret (X_train, X_val, X_test).

(** From [# Scale features] to the submission frame. *)
Definition train_and_predict (X_train X_val X_test : DataFrame)
    (y_train y_val : list cell) : result (float * DataFrame) :=
  sc ← scaler_fit ext X_train;
  X_train ← scaler_transform ext sc X_train;
  X_val ← scaler_transform ext sc X_val;
  X_test ← scaler_transform ext sc X_test;
  lgb_model ← lgb_fit ext X_train y_train X_val y_val;
  y_pred_val ← lgb_predict ext lgb_model X_val;
  r2 ← r2_score ext y_val y_pred_val;
  test_pred ← lgb_predict ext lgb_model X_test;
  mret (r2, submission_frame test_pred).

(** The notebook from [# Split data] on, run on the object made by
    [preprocessor = DataPreprocessor()]. *)
Definition workflow (train_data test_data : DataFrame)
  : Method (float * DataFrame) :=
  X ← lift (drop_column train_data "Life expectancy");
  y ← lift (getcol train_data "Life expectancy");
  let '((X_train, X_val), (y_train, y_val)) := train_test_split ext X y in
  '(X_train, X_val, X_test) ← prepare X_train X_val test_data;
  lift (train_and_predict X_train X_val X_test y_train y_val).

Definition run_workflow (train_data test_data : DataFrame) :=
  workflow train_data test_data new_preprocessor.
End Workflow.

(** ** Auxiliary definitions for the statements

    [transform] as a function of the object it reads. *)

Definition fill_on (self : DataPreprocessor) (col : string)
    (row : gmap string cell) : result cell :=
  c ← from_option (KeyError col) (row !! col);
  if isna c then
    ser ← from_option (KeyError col) (PyDict.get col (means_by_country self));
    k ← from_option (KeyError "Country") (row !! "Country");
    med ← from_option (KeyError col) (PyDict.get col (global_medians self));
    mret (Num (series_get ser k med))
  else mret c.

Definition impute_on (self : DataPreprocessor) (data : DataFrame)
    (col : string) : result DataFrame :=
  newcol ← mapM (fill_on self col) (rows data);
  mret (setcol data col newcol).

Fixpoint fold_result {A B} (body : B -> A -> result B) (l : list A) (b : B)
    : result B :=
  match l with
  | [] => mret b
  | a :: l' => b' ← body b a; fold_result body l' b'
  end.

Definition transform_on (self : DataPreprocessor) (data : DataFrame)
    : result DataFrame :=
  data ← fold_result (impute_on self) (PyDict.keys (means_by_country self)) data;
  encode_status data.


(** One turn of the loop of [transform], seen from one row. *)
Definition fill_step (self : DataPreprocessor) (col : string)
    (r r' : gmap string cell) : Prop :=
  exists v, fill_on self col r = Ok v /\ r' = <[col := v]> r.

(** The whole loop, seen from one row. *)
Inductive fill_steps (self : DataPreprocessor)
    : list string -> gmap string cell -> gmap string cell -> Prop :=
  | fill_steps_nil r : fill_steps self [] r r
  | fill_steps_cons col cols r r1 r2 :
      fill_step self col r r1 ->
      fill_steps self cols r1 r2 ->
      fill_steps self (col :: cols) r r2.

(** [transform], seen from one row: the loop, then the encoding of Status. *)
Definition transform_row (self : DataPreprocessor) (r r'' : gmap string cell) : Prop :=
  exists r' c,
    fill_steps self (PyDict.keys (means_by_country self)) r r' /\
    r' !! "Status" = Some c /\
    r'' = <["Status" := status_map c]> r'.

(** ** Sample data for the worked instances *)

Definition toy_columns : list string :=
  ["Country"; "Status"; "GDP"; "Population"; "under-five deaths";
   "infant deaths"; "Total expenditure"].

Definition toy_row (country : string) (status : cell)
    (gdp population under_five infant expenditure : float) : gmap string cell :=
  {[ "Country" := Str country; "Status" := status; "GDP" := Num gdp;
     "Population" := Num population; "under-five deaths" := Num under_five;
     "infant deaths" := Num infant; "Total expenditure" := Num expenditure ]}.

(** Country A has no GDP at all; country B has two. *)
Definition toy_fit : DataFrame :=
  {| columns := toy_columns;
     rows := [ toy_row "A" (Str "Developing") nan 10 4 2 5;
               toy_row "B" (Str "Developed") 5 2 3 1 7;
               toy_row "B" (Str "Developed") 7 2 3 1 6 ] |}.

(** A country that [toy_fit] does not have, a Status that the mapping does
    not have, and a zero population. *)
Definition toy_new : DataFrame :=
  {| columns := toy_columns;
     rows := [ toy_row "C" (Str "Unknown") nan 0 4 2 5;
               toy_row "B" (Str "Developed") nan 2 3 1 6 ] |}.

(** The object after [fit(toy_fit)]. *)
Definition toy_fitted : DataPreprocessor := (fit toy_fit new_preprocessor).2.

Definition frame_or (dflt : DataFrame) (r : result DataFrame) : DataFrame :=
  match r with
  | Ok d => d
  | Raise _ => dflt
  end.

(** A second data set, with every GDP present and one Population missing,
    and the object after [fit(toy_fit)] then [fit(toy_second)]. *)
Definition toy_second : DataFrame :=
  {| columns := toy_columns;
     rows := [ toy_row "A" (Str "Developing") 1 nan 4 2 5;
               toy_row "B" (Str "Developed") 2 3 3 1 7 ] |}.

Definition toy_refitted : DataPreprocessor := (fit toy_second toy_fitted).2.

(** ** The documented ratios

    The notebook's text on the three features: each is one column divided by
    another, and a zero denominator gives a missing value. *)

Definition spec_ratio (num den : float) : float :=
  if (den =? 0)%float then nan else (num / den)%float.

(** The number at a column of a row (NaN when there is none). *)
Definition num_at (r : gmap string cell) (col : string) : float :=
  match r !! col with
  | Some (Num x) => x
  | _ => nan
  end.

Definition spec_features_row (r : gmap string cell) : gmap string cell :=
  <["Health_expenditure_per_GDP" :=
      Num (spec_ratio (num_at r "Total expenditure") (num_at r "GDP"))]>
  (<["Child_mortality_ratio" :=
      Num (spec_ratio (num_at r "under-five deaths") (num_at r "infant deaths"))]>
  (<["GDP_per_capita" :=
      Num (spec_ratio (num_at r "GDP") (num_at r "Population"))]> r)).

Definition ratio_inputs : list string :=
  ["GDP"; "Population"; "under-five deaths"; "infant deaths"; "Total expenditure"].

Definition ratio_outputs : list string :=
  ["GDP_per_capita"; "Child_mortality_ratio"; "Health_expenditure_per_GDP"].

(** The columns that [add_features] reads are there and hold numbers. *)
Definition numeric_row (r : gmap string cell) : Prop :=
  forall c, c ∈ ratio_inputs -> exists x, r !! c = Some (Num x).

Definition numeric_inputs (df : DataFrame) : Prop :=
  (forall c, c ∈ ratio_inputs -> c ∈ columns df) /\ Forall numeric_row (rows df).

(** ** The preparation cell, seen from one row *)

(** One assignment of [add_features]. *)
Definition feature_step (name num den : string) (r r' : gmap string cell) : Prop :=
  exists a b v,
    r !! num = Some a /\ r !! den = Some b /\
    truediv a (replace_zero b) = Ok v /\
    r' = <[name := v]> r.

Definition features_row (r r3 : gmap string cell) : Prop :=
  exists r1 r2,
    feature_step "GDP_per_capita" "GDP" "Population" r r1 /\
    feature_step "Child_mortality_ratio" "under-five deaths" "infant deaths" r1 r2 /\
    feature_step "Health_expenditure_per_GDP" "Total expenditure" "GDP" r2 r3.

(** [transform], [add_features], then the drop of Country. *)
Definition prepared_row (self : DataPreprocessor) (r r' : gmap string cell) : Prop :=
  exists r1 r2,
    transform_row self r r1 /\ features_row r1 r2 /\ r' = delete "Country" r2.

(** ** Stand-ins for the library objects, for the worked instances

    The split holds out the first row; the scaler passes the numbers on as
    they are, NaN included (scikit-learn's scaler keeps NaN in [transform]);
    the regressor predicts the mean of the training target (0 when there
    is none). *)

Definition row_values (cols : list string) (r : gmap string cell) : list float :=
  map (num_at r) cols.

Definition toy_ext : Collaborators :=
  {| scaler := unit;
     regressor := float;
     train_test_split := fun X y =>
       (({| columns := columns X; rows := drop 1 (rows X) |},
         {| columns := columns X; rows := take 1 (rows X) |}),
        (drop 1 y, take 1 y));
     scaler_fit := fun _ => Ok tt;
     scaler_transform := fun _ X => Ok (map (row_values (columns X)) (rows X));
     lgb_fit := fun _ y _ _ => ys ← as_floats y; mret (nanmean ys);
     lgb_predict := fun m M => Ok (map (fun _ => if is_nan m then 0%float else m) M);
     r2_score := fun _ _ => Ok 0%float |}.

Definition toy_train : DataFrame :=
  {| columns := toy_columns ++ ["Life expectancy"];
     rows := [ <["Life expectancy" := Num 60]> (toy_row "A" (Str "Developing") nan 10 4 2 5);
               <["Life expectancy" := Num 80]> (toy_row "B" (Str "Developed") 5 2 3 1 7);
               <["Life expectancy" := Num 82]> (toy_row "B" (Str "Developed") 7 2 3 1 6) ] |}.

(** A test set of 80 rows. *)
Definition toy_test80 : DataFrame :=
  {| columns := toy_columns;
     rows := replicate 80 (toy_row "C" (Str "Developing") 3 0 4 2 5) |}.

(** What a zero denominator in an input row leaves in the output row. *)
Definition zero_denominators_missing (r r' : gmap string cell) : Prop :=
  (forall p, r !! "Population" = Some (Num p) -> (p =? 0)%float = true ->
             r' !! "GDP_per_capita" = Some NaN) /\
  (forall p, r !! "infant deaths" = Some (Num p) -> (p =? 0)%float = true ->
             r' !! "Child_mortality_ratio" = Some NaN) /\
  (forall p, r !! "GDP" = Some (Num p) -> (p =? 0)%float = true ->
             r' !! "Health_expenditure_per_GDP" = Some NaN).

Definition result_or {A} (dflt : A) (r : result A) : A :=
  match r with
  | Ok a => a
  | Raise _ => dflt
  end.

(** The run of the cells on [toy_train] and [toy_new], step by step. *)
Definition toy_X : DataFrame :=
  result_or toy_train (drop_column toy_train "Life expectancy").

Definition toy_y : list cell :=
  result_or [] (getcol toy_train "Life expectancy").

Definition toy_prepared : DataFrame * DataFrame * DataFrame :=
  result_or (toy_new, toy_new, toy_new)
    (prepare (train_test_split toy_ext toy_X toy_y).1.1
             (train_test_split toy_ext toy_X toy_y).1.2
             toy_new new_preprocessor).1.

Definition toy_prepared_state : DataPreprocessor :=
  (prepare (train_test_split toy_ext toy_X toy_y).1.1
           (train_test_split toy_ext toy_X toy_y).1.2
           toy_new new_preprocessor).2.

Definition toy_submission80 : DataFrame :=
  (result_or (0%float, toy_new) (run_workflow toy_ext toy_train toy_test80).1).2.

(** ** Well-formed frames *)

(** Every row has a cell at exactly the columns of the index. *)
Definition wf_frame (df : DataFrame) : Prop :=
  Forall (fun r : gmap string cell => forall c, c ∈ columns df <-> is_Some (r !! c))
         (rows df).

(** ** What [fit] has recorded for a column

    The entries of [col] are those that [fit(d)] writes: the grouped means
    when they can be computed, and the median when it can be too. *)
Definition recorded (d : DataFrame) (col : string) (self : DataPreprocessor) : Prop :=
  match groupby_mean d col with
  | Raise _ => True
  | Ok m =>
      PyDict.get col (means_by_country self) = Some m /\
      match median d col with
      | Raise _ => True
      | Ok md => PyDict.get col (global_medians self) = Some md
      end
  end.

(** A frame with a missing GDP and no Country column. *)
Definition toy_no_country : DataFrame :=
  {| columns := ["Status"; "GDP"];
     rows := [ {[ "Status" := Str "Developing"; "GDP" := NaN ]} ] |}.

(** A frame with no missing value. *)
Definition toy_complete : DataFrame :=
  {| columns := toy_columns;
     rows := [ toy_row "A" (Str "Developing") 1 10 4 2 5;
               toy_row "B" (Str "Developed") 5 2 3 1 7 ] |}.

(** A frame without a Status column. *)
Definition toy_no_status : DataFrame :=
  {| columns := ["Country"; "GDP"];
     rows := [ {[ "Country" := Str "A"; "GDP" := Num 1 ]} ] |}.

(** * Properties *)

Open Scope list_scope.

(** Membership of a literal in a literal list of names. *)
Ltac in_strings := apply list_elem_of_In; simpl; auto 12.

(** ** The exception monad *)

Lemma bind_Ok {A B} (m : result A) (f : A -> result B) (b : B) :
  m ≫= f = Ok b <-> exists a, m = Ok a /\ f a = Ok b.
Proof.
  destruct m as [a|e]; simpl; split.
  - intros H. exists a. auto.
  - intros (a' & [= <-] & H). exact H.
  - discriminate.
  - intros (a' & [=] & _).
Qed.

Lemma mapM_Ok {A B} (f : A -> result B) (l : list A) (l' : list B) :
  mapM f l = Ok l' <-> Forall2 (fun a b => f a = Ok b) l l'.
Proof.
  revert l'. induction l as [|a l IH]; intros l'; simpl.
  - split.
    + intros [= <-]. constructor.
    + intros H. inversion H. reflexivity.
  - split.
    + intros H. apply bind_Ok in H as (b & Hb & H).
      apply bind_Ok in H as (k & Hk & [= <-]).
      constructor; [exact Hb | by apply IH].
    + intros H. inversion H as [|? b ? k Hb Hk]; subst.
      apply IH in Hk. apply bind_Ok. exists b. split; [exact Hb|].
      apply bind_Ok. exists k. split; [exact Hk | reflexivity].
Qed.

Lemma from_option_Ok {A} (e : exn) (o : option A) (a : A) :
  from_option e o = Ok a <-> o = Some a.
Proof. destruct o; simpl; split; congruence. Qed.

(** ** Dictionaries *)

Lemma pydict_get_set_eq {V} (k : string) (v : V) (d : PyDict.t V) :
  PyDict.get k (PyDict.set k v d) = Some v.
Proof.
  induction d as [|[k' v'] d IH]; simpl.
  - by rewrite String.eqb_refl.
  - destruct (String.eqb k' k) eqn:E; simpl; rewrite E; auto.
Qed.

Lemma pydict_get_set_ne {V} (k k0 : string) (v : V) (d : PyDict.t V) :
  k <> k0 -> PyDict.get k0 (PyDict.set k v d) = PyDict.get k0 d.
Proof.
  intros Hne. induction d as [|[k' v'] d IH]; simpl.
  - apply String.eqb_neq in Hne. by rewrite Hne.
  - destruct (String.eqb k' k) eqn:E; simpl.
    + apply String.eqb_eq in E as ->.
      apply String.eqb_neq in Hne. by rewrite Hne.
    + destruct (String.eqb k' k0); auto.
Qed.

Lemma pydict_get_keys {V} (k : string) (d : PyDict.t V) :
  k ∈ PyDict.keys d <-> exists v, PyDict.get k d = Some v.
Proof.
  induction d as [|[k' v'] d IH]; simpl.
  - split; [by intros ?%elem_of_nil | by intros [? ?]].
  - rewrite elem_of_cons. simpl. destruct (String.eqb k' k) eqn:E.
    + apply String.eqb_eq in E as ->. split; eauto.
    + apply String.eqb_neq in E. rewrite <- IH. split.
      * intros [->|H]; [done | exact H].
      * auto.
Qed.

(** ** [transform] only reads the object *)

Lemma method_bind_run {A B} (m : Method A) (f : A -> Method B)
    (self : DataPreprocessor) :
  (m ≫= f) self =
  match m self with
  | (Ok a, self') => f a self'
  | (Raise e, self') => (Raise e, self')
  end.
Proof. reflexivity. Qed.

Lemma fill_run (col : string) (row : gmap string cell) (self : DataPreprocessor) :
  fill col row self = (fill_on self col row, self).
Proof.
  unfold fill, fill_on. rewrite method_bind_run. unfold lift at 1.
  destruct (from_option (KeyError col) (row !! col)) as [c|e]; [|done].
  simpl. destruct (isna c); [|done].
  rewrite method_bind_run. unfold get_self at 1.
  rewrite method_bind_run. unfold lift at 1.
  destruct (from_option (KeyError col) (PyDict.get col (means_by_country self)));
    [|done].
  rewrite method_bind_run. unfold lift at 1.
  destruct (from_option (KeyError "Country") (row !! "Country")); [|done].
  rewrite method_bind_run. unfold lift at 1.
  by destruct (from_option (KeyError col) (PyDict.get col (global_medians self))).
Qed.

Lemma mapM_run {A B} (f : A -> Method B) (g : A -> result B)
    (self : DataPreprocessor) (l : list A) :
  (forall a, f a self = (g a, self)) -> mapM f l self = (mapM g l, self).
Proof.
  intros Hf. induction l as [|a l IH]; [done|].
  change ((f a ≫= (fun y => mapM f l ≫= fun k => mret (y :: k))) self =
          (g a ≫= (fun y => mapM g l ≫= fun k => mret (y :: k)), self)).
  rewrite method_bind_run, Hf.
  destruct (g a) as [b|e]; [|done].
  rewrite method_bind_run, IH. by destruct (mapM g l).
Qed.

Lemma impute_column_run (data : DataFrame) (col : string) (self : DataPreprocessor) :
  impute_column data col self = (impute_on self data col, self).
Proof.
  unfold impute_column, impute_on. rewrite method_bind_run.
  rewrite (mapM_run _ (fill_on self col)) by (intros; apply fill_run).
  by destruct (mapM _ _).
Qed.

Lemma foldM_run {A B} (f : B -> A -> Method B) (g : B -> A -> result B)
    (self : DataPreprocessor) (l : list A) (b : B) :
  (forall b a, f b a self = (g b a, self)) ->
  foldM f l b self = (fold_result g l b, self).
Proof.
  intros Hf. revert b. induction l as [|a l IH]; intros b; [done|].
  simpl. rewrite method_bind_run, Hf.
  destruct (g b a) as [b'|e]; [|done]. apply IH.
Qed.

Lemma transform_run (data : DataFrame) (self : DataPreprocessor) :
  transform data self = (transform_on self data, self).
Proof.
  unfold transform, transform_on. rewrite method_bind_run. unfold get_self at 1.
  rewrite method_bind_run.
  rewrite (foldM_run _ (impute_on self)) by (intros; apply impute_column_run).
  by destruct (fold_result _ _ _).
Qed.

(** ** [transform], row by row *)

Lemma setcol_rows (df : DataFrame) (col : string) (vals : list cell)
    (P : gmap string cell -> cell -> Prop) :
  Forall2 P (rows df) vals ->
  Forall2 (fun r r' => exists v, P r v /\ r' = <[col := v]> r)
          (rows df) (rows (setcol df col vals)).
Proof.
  simpl. generalize (rows df). intros l H.
  induction H as [|r v l vs Hrv _ IH]; simpl; constructor; eauto.
Qed.

Lemma getcol_Ok (df : DataFrame) (col : string) (vals : list cell) :
  getcol df col = Ok vals ->
  has_column df col = true /\
  Forall2 (fun (r : gmap string cell) c => r !! col = Some c) (rows df) vals.
Proof.
  unfold getcol. destruct (has_column df col); [|discriminate].
  intros H%mapM_Ok. split; [done|].
  eapply Forall2_impl; [exact H|]. intros r c Hc. by apply from_option_Ok in Hc.
Qed.

Lemma impute_on_rows (self : DataPreprocessor) (data data' : DataFrame) (col : string) :
  impute_on self data col = Ok data' ->
  Forall2 (fill_step self col) (rows data) (rows data').
Proof.
  unfold impute_on. intros H. apply bind_Ok in H as (newcol & Hm & [= <-]).
  apply mapM_Ok in Hm. by apply setcol_rows.
Qed.

Lemma fold_impute_rows (self : DataPreprocessor) (cols : list string)
    (data data' : DataFrame) :
  fold_result (impute_on self) cols data = Ok data' ->
  Forall2 (fill_steps self cols) (rows data) (rows data').
Proof.
  revert data. induction cols as [|col cols IH]; intros data; simpl.
  - intros [= <-]. apply Forall_Forall2_diag, Forall_forall.
    intros r _. constructor.
  - intros H. apply bind_Ok in H as (d1 & H1 & H2).
    apply impute_on_rows in H1. apply IH in H2.
    eapply Forall2_trans; [|exact H1|exact H2].
    intros r r1 r2 Hs Hss. econstructor; eauto.
Qed.

Lemma encode_status_rows (data data' : DataFrame) :
  encode_status data = Ok data' ->
  Forall2 (fun r r' => exists c, r !! "Status" = Some c /\
                                 r' = <["Status" := status_map c]> r)
          (rows data) (rows data').
Proof.
  unfold encode_status. intros H. apply bind_Ok in H as (st & Hst & [= <-]).
  apply getcol_Ok in Hst as [_ Hst]. simpl.
  induction Hst as [|r c l cs Hrc _ IH]; simpl; constructor; eauto.
Qed.

Lemma transform_on_rows (self : DataPreprocessor) (data data' : DataFrame) :
  transform_on self data = Ok data' ->
  Forall2 (transform_row self) (rows data) (rows data').
Proof.
  unfold transform_on. intros H. apply bind_Ok in H as (d1 & H1 & H2).
  apply fold_impute_rows in H1. apply encode_status_rows in H2.
  eapply Forall2_trans; [|exact H1|exact H2].
  intros r r1 r2 Hs (c & Hc & ->). exists r1, c. auto.
Qed.

(** *** What one turn does to a row *)

Lemma fill_on_inv (self : DataPreprocessor) (col : string)
    (r : gmap string cell) (v : cell) :
  fill_on self col r = Ok v ->
  exists c, r !! col = Some c /\
    ((isna c = false /\ v = c) \/
     (isna c = true /\ exists ser k med,
        PyDict.get col (means_by_country self) = Some ser /\
        r !! "Country" = Some k /\
        PyDict.get col (global_medians self) = Some med /\
        v = Num (series_get ser k med))).
Proof.
  unfold fill_on. intros H. apply bind_Ok in H as (c & Hc & H).
  apply from_option_Ok in Hc. exists c. split; [done|].
  destruct (isna c).
  - right. split; [done|].
    apply bind_Ok in H as (ser & Hser%from_option_Ok & H).
    apply bind_Ok in H as (k & Hk%from_option_Ok & H).
    apply bind_Ok in H as (med & Hmed%from_option_Ok & [= <-]).
    by exists ser, k, med.
  - left. by injection H as <-.
Qed.

Lemma fill_step_keep (self : DataPreprocessor) (col0 col : string)
    (r r' : gmap string cell) (c : cell) :
  fill_step self col0 r r' ->
  r !! col = Some c -> isna c = false -> r' !! col = Some c.
Proof.
  intros (v & Hv & ->) Hc Hna.
  destruct (decide (col0 = col)) as [->|Hne].
  - apply fill_on_inv in Hv as (c' & Hc' & [[_ ->]|[Hna' _]]);
      rewrite lookup_insert_eq; congruence.
  - by rewrite lookup_insert_ne.
Qed.

Lemma fill_step_other (self : DataPreprocessor) (col0 col : string)
    (r r' : gmap string cell) :
  fill_step self col0 r r' -> col0 <> col -> r' !! col = r !! col.
Proof. intros (v & _ & ->) Hne. by rewrite lookup_insert_ne. Qed.

Lemma fill_steps_keep (self : DataPreprocessor) (cols : list string) (col : string)
    (r r' : gmap string cell) (c : cell) :
  fill_steps self cols r r' ->
  r !! col = Some c -> isna c = false -> r' !! col = Some c.
Proof.
  induction 1 as [|col0 cols r r1 r2 Hs _ IH]; [done|].
  intros Hc Hna. apply IH; [|done]. eapply fill_step_keep; eauto.
Qed.

Lemma fill_steps_other (self : DataPreprocessor) (cols : list string) (col : string)
    (r r' : gmap string cell) :
  fill_steps self cols r r' -> col ∉ cols -> r' !! col = r !! col.
Proof.
  induction 1 as [|col0 cols r r1 r2 Hs _ IH]; [done|].
  intros Hnin. apply not_elem_of_cons in Hnin as [Hne Hnin].
  rewrite IH by done. eapply fill_step_other; eauto.
Qed.

(** A value already equal to what the loop would write stays. *)
Lemma fill_steps_fixed (self : DataPreprocessor) (cols : list string) (col : string)
    (r r' : gmap string cell) (k : cell) (ser : Series) (med : float) :
  fill_steps self cols r r' ->
  r !! "Country" = Some k -> isna k = false ->
  PyDict.get col (means_by_country self) = Some ser ->
  PyDict.get col (global_medians self) = Some med ->
  r !! col = Some (Num (series_get ser k med)) ->
  r' !! col = Some (Num (series_get ser k med)).
Proof.
  intros Hss Hk Hkna Hser Hmed.
  induction Hss as [|col0 cols r r1 r2 Hs _ IH]; [done|].
  intros Hc. apply IH.
  - eapply fill_step_keep; eauto.
  - destruct (decide (col0 = col)) as [->|Hne].
    + destruct Hs as (v & Hv & ->). rewrite lookup_insert_eq.
      apply fill_on_inv in Hv as (c' & Hc' & [[_ ->]|[_ H]]); [congruence|].
      destruct H as (ser' & k' & med' & ? & ? & ? & ->). congruence.
    + erewrite fill_step_other; eauto.
Qed.

(** A missing value of a fitted column is replaced by the lookup in the
    per-country series, the median being the default. *)
Lemma fill_steps_fill (self : DataPreprocessor) (cols : list string) (col : string)
    (r r' : gmap string cell) (k c : cell) (ser : Series) :
  fill_steps self cols r r' ->
  col ∈ cols ->
  r !! "Country" = Some k -> isna k = false ->
  r !! col = Some c -> isna c = true ->
  PyDict.get col (means_by_country self) = Some ser ->
  exists med, PyDict.get col (global_medians self) = Some med /\
              r' !! col = Some (Num (series_get ser k med)).
Proof.
  intros Hss Hin Hk Hkna Hc Hcna Hser.
  induction Hss as [|col0 cols r r1 r2 Hs Hss IH]; [by apply elem_of_nil in Hin|].
  assert (Hk1 : r1 !! "Country" = Some k) by (eapply fill_step_keep; eauto).
  destruct (decide (col0 = col)) as [->|Hne].
  - destruct Hs as (v & Hv & ->).
    apply fill_on_inv in Hv as (c' & Hc' & [[Hna' _]|[_ H]]); [congruence|].
    destruct H as (ser' & k' & med & Hser' & Hk' & Hmed & ->).
    exists med. split; [done|].
    assert (ser' = ser) as -> by congruence.
    assert (k' = k) as -> by congruence.
    eapply fill_steps_fixed; eauto. by rewrite lookup_insert_eq.
  - apply elem_of_cons in Hin as [->|Hin]; [done|].
    apply IH; auto. erewrite fill_step_other; eauto.
Qed.

(** ** [fit] *)

Lemma fit_column_run (data : DataFrame) (col : string) (self : DataPreprocessor) :
  fit_column data col self =
  match groupby_mean data col with
  | Raise e => (Raise e, self)
  | Ok m =>
      let self1 := {| means_by_country := PyDict.set col m (means_by_country self);
                      global_medians := global_medians self |} in
      match median data col with
      | Raise e => (Raise e, self1)
      | Ok md =>
          (Ok tt, {| means_by_country := PyDict.set col m (means_by_country self);
                     global_medians := PyDict.set col md (global_medians self) |})
      end
  end.
Proof.
  unfold fit_column. rewrite method_bind_run. unfold lift at 1.
  destruct (groupby_mean data col) as [m|e]; [|done].
  rewrite method_bind_run. unfold set_means at 1.
  rewrite method_bind_run. unfold lift at 1.
  by destruct (median data col).
Qed.

Lemma fit_column_other (data : DataFrame) (c col : string)
    (self self' : DataPreprocessor) (r : result unit) :
  fit_column data c self = (r, self') -> c <> col ->
  PyDict.get col (means_by_country self') = PyDict.get col (means_by_country self) /\
  PyDict.get col (global_medians self') = PyDict.get col (global_medians self).
Proof.
  rewrite fit_column_run. intros H Hne.
  destruct (groupby_mean data c) as [m|e]; [|by injection H as _ <-].
  simpl in H. destruct (median data c) as [md|e]; injection H as _ <-; simpl;
    rewrite ?pydict_get_set_ne by done; done.
Qed.

Lemma fit_column_Ok (data : DataFrame) (c : string) (self self' : DataPreprocessor) :
  fit_column data c self = (Ok tt, self') ->
  exists ser med,
    groupby_mean data c = Ok ser /\ median data c = Ok med /\
    PyDict.get c (means_by_country self') = Some ser /\
    PyDict.get c (global_medians self') = Some med.
Proof.
  rewrite fit_column_run. intros H.
  destruct (groupby_mean data c) as [m|e]; [|discriminate].
  simpl in H. destruct (median data c) as [md|e]; [|discriminate].
  injection H as <-. exists m, md. simpl.
  by rewrite !pydict_get_set_eq.
Qed.

Lemma for_each_cons_run {A} (a : A) (l : list A) (body : A -> Method unit)
    (self : DataPreprocessor) :
  for_each (a :: l) body self =
  match body a self with
  | (Ok _, self') => for_each l body self'
  | (Raise e, self') => (Raise e, self')
  end.
Proof. reflexivity. Qed.

(** Columns that are not refitted keep their entries, whether or not the
    call raises. *)
Lemma fit_columns_preserve (data : DataFrame) (cols : list string) (col : string)
    (self self' : DataPreprocessor) (r : result unit) :
  for_each cols (fit_column data) self = (r, self') -> col ∉ cols ->
  PyDict.get col (means_by_country self') = PyDict.get col (means_by_country self) /\
  PyDict.get col (global_medians self') = PyDict.get col (global_medians self).
Proof.
  revert self. induction cols as [|c cols IH]; intros self.
  - by intros [= _ <-].
  - rewrite for_each_cons_run. intros H Hnin.
    apply not_elem_of_cons in Hnin as [Hne Hnin].
    destruct (fit_column data c self) as [[[]|e] self1] eqn:E.
    + apply IH in H as [-> ->]; [|done]. eapply fit_column_other; eauto.
    + injection H as _ <-. eapply fit_column_other; eauto.
Qed.

(** A successful [fit] has recorded, for each column it went through, the
    grouped means and the median of the fit data. *)
Lemma fit_columns_record (data : DataFrame) (cols : list string) (col : string)
    (self self' : DataPreprocessor) :
  for_each cols (fit_column data) self = (Ok tt, self') -> col ∈ cols ->
  exists ser med,
    groupby_mean data col = Ok ser /\ median data col = Ok med /\
    PyDict.get col (means_by_country self') = Some ser /\
    PyDict.get col (global_medians self') = Some med.
Proof.
  revert self. induction cols as [|c cols IH]; intros self.
  - by intros _ ?%elem_of_nil.
  - rewrite for_each_cons_run. intros H Hin.
    destruct (fit_column data c self) as [[[]|e] self1] eqn:E; [|discriminate].
    destruct (decide (col ∈ cols)) as [Hin'|Hnin]; [by eapply IH|].
    apply elem_of_cons in Hin as [->|?]; [|done].
    apply fit_column_Ok in E as (ser & med & ? & ? & ? & ?).
    eapply fit_columns_preserve in H as [-> ->]; eauto.
    by exists ser, med.
Qed.

(** [fit] adds no key besides the columns it goes through. *)
Lemma fit_columns_keys (data : DataFrame) (cols : list string) (col : string)
    (self self' : DataPreprocessor) (r : result unit) :
  for_each cols (fit_column data) self = (r, self') ->
  col ∈ PyDict.keys (means_by_country self') ->
  col ∈ PyDict.keys (means_by_country self) \/ col ∈ cols.
Proof.
  intros H Hin. destruct (decide (col ∈ cols)) as [|Hnin]; [by right|left].
  eapply fit_columns_preserve in H as [Hm _]; [|done].
  apply pydict_get_keys. apply pydict_get_keys in Hin. by rewrite <- Hm.
Qed.

(** ** Equality of float64 labels *)

Lemma SFeqb_congr (a b x : spec_float) :
  SFeqb a b = true -> SFeqb x a = SFeqb x b.
Proof.
  unfold SFeqb. intros H.
  destruct a as [sa|sa| |sa ma ea], b as [sb|sb| |sb mb eb];
    simpl in H; try discriminate;
    try (destruct sa; discriminate); try (destruct sb; discriminate).
  - by destruct x.
  - by destruct sa, sb.
  - destruct sa, sb; try discriminate;
      destruct (Z.compare ea eb) eqn:Ee; try discriminate;
      apply Z.compare_eq in Ee as ->;
      destruct (Pos.compare_cont Eq ma mb) eqn:Em; try discriminate;
      apply Pos.compare_eq in Em as ->; reflexivity.
Qed.

Lemma feqb_congr (a b x : float) :
  (a =? b)%float = true -> (x =? a)%float = (x =? b)%float.
Proof. rewrite !FloatAxioms.eqb_spec. apply SFeqb_congr. Qed.

Lemma cell_eqb_congr (a b x : cell) :
  cell_eqb a b = true -> cell_eqb x a = cell_eqb x b.
Proof.
  destruct a as [fa|sa], b as [fb|sb]; simpl; try discriminate.
  - intros H. destruct x; [|done]. by apply feqb_congr.
  - intros ->%String.eqb_eq. done.
Qed.

Lemma cell_eqb_refl (k : cell) : isna k = false -> cell_eqb k k = true.
Proof.
  destruct k as [x|s]; simpl.
  - unfold is_nan. by intros ->%negb_false_iff.
  - intros _. apply String.eqb_refl.
Qed.

Lemma cell_eqb_notna (a b : cell) : cell_eqb a b = true -> isna a = false.
Proof.
  intros H. destruct a as [x|s]; [|done]. destruct b as [y|]; [|done].
  simpl in *. unfold is_nan. by rewrite (feqb_congr x y x H), H.
Qed.

(** ** The grouped means as a lookup table *)

Lemma unique_subset (l : list cell) (k : cell) : k ∈ unique l -> k ∈ l.
Proof.
  induction l as [|a l IH]; simpl; [done|].
  rewrite !elem_of_cons. intros [->|H]; [by left|right].
  apply IH. apply list_elem_of_In in H. apply filter_In in H as [H _].
  by apply list_elem_of_In.
Qed.

Lemma unique_cover (l : list cell) (x : cell) :
  x ∈ l -> isna x = false -> exists k, k ∈ unique l /\ cell_eqb k x = true.
Proof.
  intros Hin Hna. induction l as [|a l IH]; [by apply elem_of_nil in Hin|].
  apply elem_of_cons in Hin as [->|Hin].
  - exists a. split; [by left | by apply cell_eqb_refl].
  - destruct (IH Hin) as (k & Hk & Hkx). simpl.
    destruct (cell_eqb a k) eqn:E.
    + exists a. split; [by left|]. by rewrite <- (cell_eqb_congr k x a Hkx).
    + exists k. split; [|done]. right.
      apply list_elem_of_In, filter_In. split; [by apply list_elem_of_In|].
      by rewrite E.
Qed.

Lemma group_values_congr (keys vals : list cell) (a b : cell) :
  cell_eqb a b = true -> group_values keys vals a = group_values keys vals b.
Proof.
  intros H. unfold group_values. f_equal. apply List.filter_ext.
  intros p. by apply cell_eqb_congr.
Qed.

Section GroupTable.
Variables (keys vals : list cell).

Let entry (k : cell) : result (cell * float) :=
  xs ← as_floats (group_values keys vals k); mret (k, nanmean xs).

Lemma series_lookup_hit (index : list cell) (ser : Series) (key k : cell) :
  Forall2 (fun k p => entry k = Ok p) index ser ->
  k ∈ index -> cell_eqb k key = true ->
  exists xs, as_floats (group_values keys vals key) = Ok xs /\
             series_lookup ser key = Some (nanmean xs).
Proof.
  intros H. induction H as [|k0 p index ser Hp _ IH]; [by intros ?%elem_of_nil|].
  intros Hin Hk. unfold entry in Hp.
  apply bind_Ok in Hp as (xs & Hxs & [= <-]). simpl.
  destruct (cell_eqb k0 key) eqn:E.
  - exists xs. split; [|done]. by rewrite <- (group_values_congr _ _ k0 key E).
  - apply elem_of_cons in Hin as [->|Hin]; [congruence | by apply IH].
Qed.

Lemma series_lookup_miss (index : list cell) (ser : Series) (key : cell) :
  Forall2 (fun k p => entry k = Ok p) index ser ->
  (forall k, k ∈ index -> cell_eqb k key = false) ->
  series_lookup ser key = None.
Proof.
  intros H. induction H as [|k0 p index ser Hp _ IH]; [done|].
  intros Hall. unfold entry in Hp.
  apply bind_Ok in Hp as (xs & Hxs & [= <-]). simpl.
  rewrite (Hall k0) by (by left). apply IH. intros k Hk. apply Hall. by right.
Qed.
End GroupTable.

Lemma groupby_mean_inv (d : DataFrame) (col : string) (ser : Series) :
  groupby_mean d col = Ok ser ->
  exists keys vals,
    getcol d "Country" = Ok keys /\ getcol d col = Ok vals /\
    Forall2 (fun k p => (xs ← as_floats (group_values keys vals k);
                         mret (k, nanmean xs)) = Ok p)
            (unique (List.filter notna keys)) ser.
Proof.
  unfold groupby_mean. intros H.
  apply bind_Ok in H as (keys & Hkeys & H).
  apply bind_Ok in H as (vals & Hvals & H).
  apply mapM_Ok in H. by exists keys, vals.
Qed.

(** A country seen at fit time is looked up to the mean of its group. *)
Lemma groupby_mean_lookup (d : DataFrame) (col : string) (ser : Series)
    (keys vals : list cell) (key : cell) :
  groupby_mean d col = Ok ser ->
  getcol d "Country" = Ok keys -> getcol d col = Ok vals ->
  key ∈ keys -> isna key = false ->
  exists xs, as_floats (group_values keys vals key) = Ok xs /\
             series_lookup ser key = Some (nanmean xs).
Proof.
  intros H Hk Hv Hin Hna.
  apply groupby_mean_inv in H as (keys' & vals' & Hk' & Hv' & H).
  assert (keys' = keys) as -> by congruence.
  assert (vals' = vals) as -> by congruence.
  destruct (unique_cover (List.filter notna keys) key) as (k & Hkin & Hkk); [|done|].
  - apply list_elem_of_In, filter_In. split; [by apply list_elem_of_In|].
    unfold notna. by rewrite Hna.
  - eapply series_lookup_hit; eauto.
Qed.

(** A country not seen at fit time is no label of the series. *)
Lemma groupby_mean_unseen (d : DataFrame) (col : string) (ser : Series)
    (keys : list cell) (key : cell) :
  groupby_mean d col = Ok ser ->
  getcol d "Country" = Ok keys ->
  (forall k, k ∈ keys -> cell_eqb k key = false) ->
  series_lookup ser key = None.
Proof.
  intros H Hk Hall.
  apply groupby_mean_inv in H as (keys' & vals' & Hk' & Hv' & H).
  assert (keys' = keys) as -> by congruence.
  eapply series_lookup_miss; [exact H|].
  intros k Hin%unique_subset. apply Hall.
  apply list_elem_of_In, filter_In in Hin as [Hin _]. by apply list_elem_of_In.
Qed.

Lemma nanmean_all_missing (xs : list float) :
  Forall (fun x => is_nan x = true) xs -> nanmean xs = nan.
Proof.
  intros H. unfold nanmean.
  assert (dropna xs = []) as ->; [|done].
  induction H as [|x xs Hx _ IH]; [done|].
  unfold dropna in *. simpl. by rewrite Hx.
Qed.

(** ** [transform] on a frame *)

Lemma transform_Ok (x x' : DataFrame) (self self' : DataPreprocessor) :
  transform x self = (Ok x', self') -> transform_on self x = Ok x' /\ self' = self.
Proof. rewrite transform_run. by intros [= -> <-]. Qed.

(** A value that is not missing passes through (Status apart). *)
Lemma transform_on_keeps (self : DataPreprocessor) (x x' : DataFrame)
    (col : string) (i : nat) (r : gmap string cell) (c : cell) :
  transform_on self x = Ok x' -> col <> "Status" ->
  rows x !! i = Some r -> r !! col = Some c -> isna c = false ->
  exists r', rows x' !! i = Some r' /\ r' !! col = Some c.
Proof.
  intros H Hne Hi Hc Hna. apply transform_on_rows in H.
  destruct (Forall2_lookup_l _ _ _ _ _ H Hi) as (r'' & Hi' & r1 & c0 & Hss & _ & ->).
  exists (<["Status" := status_map c0]> r1). split; [done|].
  rewrite lookup_insert_ne by done. eapply fill_steps_keep; eauto.
Qed.

(** A missing value of a fitted column is filled from the state. *)
Lemma transform_on_fills (self : DataPreprocessor) (x x' : DataFrame)
    (col : string) (i : nat) (r : gmap string cell) (k c : cell) (ser : Series) :
  transform_on self x = Ok x' -> col <> "Status" ->
  rows x !! i = Some r ->
  r !! "Country" = Some k -> isna k = false ->
  r !! col = Some c -> isna c = true ->
  PyDict.get col (means_by_country self) = Some ser ->
  exists med r',
    PyDict.get col (global_medians self) = Some med /\
    rows x' !! i = Some r' /\
    r' !! col = Some (Num (series_get ser k med)).
Proof.
  intros H Hne Hi Hk Hkna Hc Hcna Hser. apply transform_on_rows in H.
  destruct (Forall2_lookup_l _ _ _ _ _ H Hi) as (r'' & Hi' & r1 & c0 & Hss & _ & ->).
  destruct (fill_steps_fill self _ col r r1 k c ser Hss) as (med & Hmed & Hr1); auto.
  { apply pydict_get_keys. eauto. }
  exists med, (<["Status" := status_map c0]> r1).
  by rewrite lookup_insert_ne.
Qed.

(** A column that is no key of the state is left as it is (Status apart). *)
Lemma transform_on_untouched (self : DataPreprocessor) (x x' : DataFrame)
    (col : string) :
  transform_on self x = Ok x' -> col <> "Status" ->
  col ∉ PyDict.keys (means_by_country self) ->
  Forall2 (fun r r' : gmap string cell => r' !! col = r !! col) (rows x) (rows x').
Proof.
  intros H Hne Hnin. apply transform_on_rows in H.
  eapply Forall2_impl; [exact H|].
  intros r r'' (r1 & c0 & Hss & _ & ->).
  rewrite lookup_insert_ne by done. by eapply fill_steps_other.
Qed.

Lemma status_map_other (c : cell) :
  c <> Str "Developing" -> c <> Str "Developed" -> status_map c = NaN.
Proof.
  destruct c as [x|s]; [done|]. simpl. intros H1 H2.
  destruct (String.eqb s "Developing") eqn:E1.
  { apply String.eqb_eq in E1. congruence. }
  destruct (String.eqb s "Developed") eqn:E2; [|done].
  apply String.eqb_eq in E2. congruence.
Qed.


(** The loop writes numbers only, so a cell that is no text stays so. *)
Lemma fill_steps_num (self : DataPreprocessor) (cols : list string) (col : string)
    (r r' : gmap string cell) (x : float) :
  fill_steps self cols r r' -> r !! col = Some (Num x) ->
  exists y, r' !! col = Some (Num y).
Proof.
  intros Hss. revert x. induction Hss as [|col0 cols r r1 r2 Hs _ IH]; [by eauto|].
  intros x Hc. destruct Hs as (v & Hv & ->).
  destruct (decide (col0 = col)) as [->|Hne].
  - apply fill_on_inv in Hv as (c' & Hc' & [[_ ->]|[_ H]]).
    + apply (IH x). rewrite lookup_insert_eq. congruence.
    + destruct H as (ser & k & med & _ & _ & _ & ->).
      eapply IH. by rewrite lookup_insert_eq.
  - apply (IH x). by rewrite lookup_insert_ne.
Qed.

(** What the loop leaves in Status, when the input value is outside the
    mapping, is still outside the mapping. *)
Lemma fill_steps_status_outside (self : DataPreprocessor) (cols : list string)
    (r r' : gmap string cell) (c c' : cell) :
  fill_steps self cols r r' ->
  r !! "Status" = Some c -> r' !! "Status" = Some c' ->
  c <> Str "Developing" -> c <> Str "Developed" ->
  status_map c' = NaN.
Proof.
  intros Hss Hc Hc' H1 H2. destruct c as [x|s].
  - destruct (fill_steps_num _ _ _ _ _ _ Hss Hc) as (y & Hy).
    assert (c' = Num y) as -> by congruence. done.
  - assert (r' !! "Status" = Some (Str s)) by (eapply fill_steps_keep; eauto).
    assert (c' = Str s) as -> by congruence. by apply status_map_other.
Qed.

(** * The claims *)

Lemma fit_new_keys (d : DataFrame) (self : DataPreprocessor) (r : result unit)
    (col : string) :
  fit d new_preprocessor = (r, self) ->
  col ∈ PyDict.keys (means_by_country self) -> isna_any d col = true.
Proof.
  intros H Hin. eapply fit_columns_keys in H as [H|H]; [| |exact Hin].
  - by apply elem_of_nil in H.
  - unfold cols_with_na in H. by apply list_elem_of_In, filter_In in H as [_ H].
Qed.

(** C3, as stated, fails on the Status column: the fit data has no missing
    Status, yet [transform] replaces every Status by its code. *)
Lemma C3_status_is_rewritten :
  ~ (forall (d x x' : DataFrame) (self self' : DataPreprocessor) (col : string),
       fit d new_preprocessor = (Ok tt, self) ->
       col ∈ columns d -> isna_any d col = false ->
       transform x self = (Ok x', self') ->
       Forall2 (fun r r' : gmap string cell => r' !! col = r !! col)
               (rows x) (rows x')).
Proof.
  intros H.
  assert (Hrows : Forall2 (fun r r' : gmap string cell => r' !! "Status" = r !! "Status")
            (rows toy_fit)
            (rows (frame_or toy_fit (transform_on toy_fitted toy_fit)))).
  { apply (H toy_fit toy_fit _ toy_fitted toy_fitted "Status").
    - vm_compute. reflexivity.
    - apply list_elem_of_In. simpl. auto.
    - vm_compute. reflexivity.
    - rewrite transform_run. vm_compute. reflexivity. }
  set (x' := frame_or toy_fit (transform_on toy_fitted toy_fit)) in *.
  assert (Hi : rows x' !! 0%nat = Some (default ∅ (rows x' !! 0%nat)))
    by (vm_compute; reflexivity).
  pose proof (Forall2_lookup_lr _ _ _ 0%nat _ _ Hrows eq_refl Hi) as Heq.
  vm_compute in Heq. discriminate Heq.
Qed.

(** C3, amended: for every column other than Status that had no missing
    value in the data a fresh preprocessor was fitted on, [transform] leaves
    every value of that column as it is, on every input on which it returns. *)
Theorem C3_transform_identity_off_status
    (d x x' : DataFrame) (self self' : DataPreprocessor) (col : string) :
  fit d new_preprocessor = (Ok tt, self) ->
  isna_any d col = false ->
  col <> "Status" ->
  transform x self = (Ok x', self') ->
  Forall2 (fun r r' : gmap string cell => r' !! col = r !! col) (rows x) (rows x').
Proof.
  intros Hfit Hna Hne [Ht _]%transform_Ok.
  eapply transform_on_untouched; eauto.
  intros Hin. eapply fit_new_keys in Hin; eauto. congruence.
Qed.

Lemma C3_transform_identity_off_status_witness :
  Forall2 (fun r r' : gmap string cell => r' !! "Population" = r !! "Population")
          (rows toy_new)
          (rows (frame_or toy_new (transform_on toy_fitted toy_new))).
Proof.
  apply (C3_transform_identity_off_status toy_fit toy_new _ toy_fitted toy_fitted).
  - vm_compute. reflexivity.
  - vm_compute. reflexivity.
  - discriminate.
  - rewrite transform_run. vm_compute. reflexivity.
Defined.

(** C2, as stated, fails: a Status outside the mapping raises nothing. *)
Lemma C2_unknown_status_raises_nothing :
  ~ (forall (x : DataFrame) (self : DataPreprocessor) (i : nat)
            (r : gmap string cell) (c : cell),
       rows x !! i = Some r -> r !! "Status" = Some c ->
       c <> Str "Developing" -> c <> Str "Developed" ->
       exists e, (transform x self).1 = Raise e).
Proof.
  intros H.
  destruct (H toy_new toy_fitted 0 (toy_row "C" (Str "Unknown") nan 0 4 2 5)
              (Str "Unknown")) as (e & He);
    [reflexivity | vm_compute; reflexivity | discriminate | discriminate |].
  rewrite transform_run in He. vm_compute in He. discriminate He.
Qed.

(** C2, amended: on every input on which [transform] returns, a Status
    value outside the mapping Developing/Developed is encoded as missing
    (NaN); no error is raised for it. *)
Theorem C2_unknown_status_becomes_missing
    (x x' : DataFrame) (self self' : DataPreprocessor) (i : nat)
    (r : gmap string cell) (c : cell) :
  transform x self = (Ok x', self') ->
  rows x !! i = Some r -> r !! "Status" = Some c ->
  c <> Str "Developing" -> c <> Str "Developed" ->
  exists r', rows x' !! i = Some r' /\ r' !! "Status" = Some NaN.
Proof.
  intros [Ht _]%transform_Ok Hi Hc H1 H2. apply transform_on_rows in Ht.
  destruct (Forall2_lookup_l _ _ _ _ _ Ht Hi) as (r'' & Hi' & r1 & c1 & Hss & Hc1 & ->).
  eexists. split; [done|]. rewrite lookup_insert_eq. f_equal.
  eapply fill_steps_status_outside; eauto.
Qed.

Lemma C2_unknown_status_becomes_missing_witness :
  exists r', rows (frame_or toy_new (transform_on toy_fitted toy_new)) !! 0%nat = Some r' /\
             r' !! "Status" = Some NaN.
Proof.
  apply (C2_unknown_status_becomes_missing toy_new _ toy_fitted toy_fitted 0
           (toy_row "C" (Str "Unknown") nan 0 4 2 5) (Str "Unknown")).
  - rewrite transform_run. vm_compute. reflexivity.
  - reflexivity.
  - vm_compute. reflexivity.
  - discriminate.
  - discriminate.
Defined.



Lemma fit_new_records (d : DataFrame) (self : DataPreprocessor) (col : string) :
  fit d new_preprocessor = (Ok tt, self) -> col ∈ cols_with_na d ->
  exists ser med,
    groupby_mean d col = Ok ser /\ median d col = Ok med /\
    PyDict.get col (means_by_country self) = Some ser /\
    PyDict.get col (global_medians self) = Some med.
Proof. intros H Hin. eapply fit_columns_record; eauto. Qed.

(** C6: after a fresh preprocessor is fitted on [d], every column of [d]
    with a missing value has its means grouped by Country and its median
    recorded; and [transform] replaces a missing value of such a column, in
    a row whose Country occurs in [d], by exactly the mean of the values of
    that column over the rows of [d] with that Country. *)
Theorem C6_known_country_gets_group_mean
    (d : DataFrame) (self : DataPreprocessor) (col : string)
    (keys vals : list cell) :
  fit d new_preprocessor = (Ok tt, self) ->
  col ∈ cols_with_na d ->
  getcol d "Country" = Ok keys ->
  getcol d col = Ok vals ->
  exists ser med,
    groupby_mean d col = Ok ser /\ median d col = Ok med /\
    PyDict.get col (means_by_country self) = Some ser /\
    PyDict.get col (global_medians self) = Some med /\
    forall (x x' : DataFrame) (self' : DataPreprocessor) (i : nat)
           (r : gmap string cell) (k c : cell),
      transform x self = (Ok x', self') ->
      col <> "Status" ->
      rows x !! i = Some r ->
      r !! "Country" = Some k -> k ∈ keys -> isna k = false ->
      r !! col = Some c -> isna c = true ->
      exists xs r',
        as_floats (group_values keys vals k) = Ok xs /\
        series_lookup ser k = Some (nanmean xs) /\
        rows x' !! i = Some r' /\
        r' !! col = Some (Num (nanmean xs)).
Proof.
  intros Hfit Hin Hkeys Hvals.
  destruct (fit_new_records d self col Hfit Hin) as (ser & med & Hg & Hm & Hgs & Hms).
  exists ser, med. repeat split; try done.
  intros x x' self' i r k c [Ht _]%transform_Ok Hne Hi Hk Hkin Hkna Hc Hcna.
  destruct (groupby_mean_lookup d col ser keys vals k) as (xs & Hxs & Hl); auto.
  destruct (transform_on_fills self x x' col i r k c ser)
    as (med' & r' & Hmed' & Hi' & Hr'); auto.
  exists xs, r'. repeat split; try done.
  rewrite Hr'. unfold series_get. by rewrite Hl.
Qed.

Lemma C6_known_country_gets_group_mean_witness :
  exists xs r',
    as_floats (group_values [Str "A"; Str "B"; Str "B"]
                            [Num nan; Num 5; Num 7] (Str "B")) = Ok xs /\
    rows (frame_or toy_new (transform_on toy_fitted toy_new)) !! 1%nat = Some r' /\
    r' !! "GDP" = Some (Num (nanmean xs)) /\ nanmean xs = 6%float.
Proof.
  destruct (C6_known_country_gets_group_mean toy_fit toy_fitted "GDP"
              [Str "A"; Str "B"; Str "B"] [Num nan; Num 5; Num 7])
    as (ser & med & _ & _ & _ & _ & Hfill).
  - vm_compute. reflexivity.
  - unfold cols_with_na. apply list_elem_of_In, filter_In. split.
    + simpl. auto.
    + vm_compute. reflexivity.
  - vm_compute. reflexivity.
  - vm_compute. reflexivity.
  - destruct (Hfill toy_new (frame_or toy_new (transform_on toy_fitted toy_new))
                toy_fitted 1%nat (toy_row "B" (Str "Developed") nan 2 3 1 6)
                (Str "B") (Num nan))
      as (xs & r' & Hxs & _ & Hi & Hr).
    + rewrite transform_run. vm_compute. reflexivity.
    + discriminate.
    + reflexivity.
    + vm_compute. reflexivity.
    + in_strings.
    + reflexivity.
    + vm_compute. reflexivity.
    + reflexivity.
    + exists xs, r'. repeat split; try done.
      vm_compute in Hxs. injection Hxs as <-. vm_compute. reflexivity.
Defined.

(** C10: [fit] never clears what an earlier [fit] recorded.  A column that
    had missing values in [d1] and has none in [d2] keeps, after the second
    [fit] (whether it returns or raises), the means and median of [d1], and
    [transform] goes on filling that column from them. *)
Theorem C10_fit_keeps_stale_entries
    (d1 d2 : DataFrame) (self1 self2 : DataPreprocessor) (res : result unit)
    (col : string) :
  fit d1 new_preprocessor = (Ok tt, self1) ->
  col ∈ cols_with_na d1 ->
  isna_any d2 col = false ->
  fit d2 self1 = (res, self2) ->
  exists ser med,
    groupby_mean d1 col = Ok ser /\ median d1 col = Ok med /\
    PyDict.get col (means_by_country self2) = Some ser /\
    PyDict.get col (global_medians self2) = Some med /\
    forall (x x' : DataFrame) (self' : DataPreprocessor) (i : nat)
           (r : gmap string cell) (k c : cell),
      transform x self2 = (Ok x', self') ->
      col <> "Status" ->
      rows x !! i = Some r ->
      r !! "Country" = Some k -> isna k = false ->
      r !! col = Some c -> isna c = true ->
      exists r', rows x' !! i = Some r' /\
                 r' !! col = Some (Num (series_get ser k med)).
Proof.
  intros Hfit1 Hin Hna Hfit2.
  destruct (fit_new_records d1 self1 col Hfit1 Hin) as (ser & med & Hg & Hm & Hgs & Hms).
  assert (Hnin : col ∉ cols_with_na d2).
  { intros H. unfold cols_with_na in H.
    apply list_elem_of_In, filter_In in H as [_ H]. congruence. }
  destruct (fit_columns_preserve d2 _ col self1 self2 res Hfit2 Hnin) as [Hk1 Hk2].
  exists ser, med. rewrite Hk1, Hk2. repeat split; try done.
  intros x x' self' i r k c [Ht _]%transform_Ok Hne Hi Hk Hkna Hc Hcna.
  destruct (transform_on_fills self2 x x' col i r k c ser)
    as (med' & r' & Hmed' & Hi' & Hr'); auto; [congruence|].
  exists r'. split; [done|]. rewrite Hr'. do 3 f_equal. congruence.
Qed.

Lemma C10_fit_keeps_stale_entries_witness :
  PyDict.get "GDP" (global_medians toy_refitted) = Some 6%float /\
  exists r', rows (frame_or toy_new (transform_on toy_refitted toy_new)) !! 1%nat = Some r' /\
             r' !! "GDP" = Some (Num 6).
Proof.
  destruct (C10_fit_keeps_stale_entries toy_fit toy_second toy_fitted toy_refitted
              (Ok tt) "GDP")
    as (ser & med & Hser & Hmed & _ & Hget & Hfill).
  - vm_compute. reflexivity.
  - unfold cols_with_na. apply list_elem_of_In, filter_In. split.
    + simpl. auto.
    + vm_compute. reflexivity.
  - vm_compute. reflexivity.
  - vm_compute. reflexivity.
  - vm_compute in Hser. injection Hser as <-.
    vm_compute in Hmed. injection Hmed as <-.
    split; [exact Hget|].
    destruct (Hfill toy_new (frame_or toy_new (transform_on toy_refitted toy_new))
                toy_refitted 1%nat (toy_row "B" (Str "Developed") nan 2 3 1 6)
                (Str "B") (Num nan)) as (r' & Hi & Hr).
    + rewrite transform_run. vm_compute. reflexivity.
    + discriminate.
    + reflexivity.
    + vm_compute. reflexivity.
    + reflexivity.
    + vm_compute. reflexivity.
    + reflexivity.
    + exists r'. split; [exact Hi|]. rewrite Hr. vm_compute. reflexivity.
Defined.

(** *** C1: the two fallback cases *)

(** The case that holds: a country that the fit data does not have. *)
Lemma transform_unseen_country_gets_median
    (d x x' : DataFrame) (self self' : DataPreprocessor) (col : string)
    (keys : list cell) (i : nat) (r : gmap string cell) (k c : cell) :
  fit d new_preprocessor = (Ok tt, self) ->
  col ∈ cols_with_na d ->
  getcol d "Country" = Ok keys ->
  transform x self = (Ok x', self') ->
  col <> "Status" ->
  rows x !! i = Some r ->
  r !! "Country" = Some k -> isna k = false ->
  (forall k0, k0 ∈ keys -> cell_eqb k0 k = false) ->
  r !! col = Some c -> isna c = true ->
  exists med r',
    median d col = Ok med /\ rows x' !! i = Some r' /\ r' !! col = Some (Num med).
Proof.
  intros Hfit Hin Hkeys [Ht _]%transform_Ok Hne Hi Hk Hkna Hunseen Hc Hcna.
  destruct (fit_new_records d self col Hfit Hin) as (ser & med & Hg & Hm & Hgs & Hms).
  destruct (transform_on_fills self x x' col i r k c ser)
    as (med' & r' & Hmed' & Hi' & Hr'); auto.
  exists med, r'. repeat split; try done.
  rewrite Hr'. unfold series_get.
  rewrite (groupby_mean_unseen d col ser keys k) by done. simpl. congruence.
Qed.

Lemma as_floats_all_missing (cells : list cell) (xs : list float) :
  as_floats cells = Ok xs -> Forall (fun v => isna v = true) cells ->
  Forall (fun x => is_nan x = true) xs.
Proof.
  unfold as_floats. intros H%mapM_Ok Hall.
  induction H as [|v x cells xs Hvx _ IH]; [constructor|].
  apply Forall_cons in Hall as [Hv Hall]. constructor; [|by apply IH].
  destruct v as [y|s]; [|done]. simpl in *. congruence.
Qed.

(** The case that fails: a country of the fit data with no value at all in
    the column.  Its mean is NaN, the lookup finds it, and the missing value
    stays missing whatever the median is. *)
Lemma transform_all_missing_country_stays_missing
    (d x x' : DataFrame) (self self' : DataPreprocessor) (col : string)
    (keys vals : list cell) (i : nat) (r : gmap string cell) (k c : cell) :
  fit d new_preprocessor = (Ok tt, self) ->
  col ∈ cols_with_na d ->
  getcol d "Country" = Ok keys ->
  getcol d col = Ok vals ->
  transform x self = (Ok x', self') ->
  col <> "Status" ->
  rows x !! i = Some r ->
  r !! "Country" = Some k -> k ∈ keys -> isna k = false ->
  Forall (fun v => isna v = true) (group_values keys vals k) ->
  r !! col = Some c -> isna c = true ->
  exists r', rows x' !! i = Some r' /\ r' !! col = Some NaN.
Proof.
  intros Hfit Hin Hkeys Hvals [Ht _]%transform_Ok Hne Hi Hk Hkin Hkna Hall Hc Hcna.
  destruct (fit_new_records d self col Hfit Hin) as (ser & med & Hg & Hm & Hgs & Hms).
  destruct (groupby_mean_lookup d col ser keys vals k) as (xs & Hxs & Hl); auto.
  destruct (transform_on_fills self x x' col i r k c ser)
    as (med' & r' & Hmed' & Hi' & Hr'); auto.
  exists r'. split; [done|]. rewrite Hr'. unfold series_get. rewrite Hl. simpl.
  by rewrite (nanmean_all_missing xs (as_floats_all_missing _ _ Hxs Hall)).
Qed.

(** C1 at the failing input: country A is in the fit data with every GDP
    missing; the median of GDP is 6; the GDP of A's row stays NaN. *)
Example C1_all_missing_country_stays_missing :
  fit_transform toy_fit new_preprocessor =
    (Ok (frame_or toy_fit (transform_on toy_fitted toy_fit)), toy_fitted) /\
  PyDict.get "GDP" (global_medians toy_fitted) = Some 6%float /\
  (exists r, rows toy_fit !! 0%nat = Some r /\
             r !! "Country" = Some (Str "A") /\ r !! "GDP" = Some NaN) /\
  (exists r', rows (frame_or toy_fit (transform_on toy_fitted toy_fit)) !! 0%nat = Some r' /\
              r' !! "GDP" = Some NaN).
Proof.
  split; [vm_compute; reflexivity|].
  split; [vm_compute; reflexivity|].
  split; eexists; (split; [reflexivity|]); vm_compute; auto.
Qed.

(** ** Feature synthesis *)

Lemma div_nan (x : float) : (x / nan)%float = nan.
Proof.
  apply Prim2SF_inj. rewrite FloatAxioms.div_spec.
  change (Prim2SF nan) with S754_nan.
  unfold SF64div, SFdiv. by destruct (Prim2SF x).
Qed.

Lemma truediv_replace_zero (g p : float) :
  truediv (Num g) (replace_zero (Num p)) = Ok (Num (spec_ratio g p)).
Proof.
  unfold replace_zero, spec_ratio. destruct (p =? 0)%float; simpl; [|done].
  by rewrite div_nan.
Qed.

Lemma has_column_elem (df : DataFrame) (col : string) :
  has_column df col = true <-> col ∈ columns df.
Proof.
  unfold has_column. rewrite existsb_exists, list_elem_of_In. split.
  - by intros (c & Hin & ->%String.eqb_eq).
  - intros H. exists col. split; [done | apply String.eqb_refl].
Qed.

Lemma has_column_not_elem (df : DataFrame) (col : string) :
  has_column df col = false <-> col ∉ columns df.
Proof.
  rewrite <- has_column_elem. destruct (has_column df col); split; try done.
Qed.

Lemma getcol_numeric (df : DataFrame) (col : string) :
  col ∈ columns df ->
  Forall (fun r : gmap string cell => exists x, r !! col = Some (Num x)) (rows df) ->
  getcol df col = Ok (map (fun r => Num (num_at r col)) (rows df)).
Proof.
  intros Hin%has_column_elem Hall. unfold getcol. rewrite Hin.
  apply mapM_Ok. induction Hall as [|r l (x & Hx) _ IH]; simpl; constructor; [|done].
  unfold num_at. by rewrite Hx.
Qed.

Lemma zipM_truediv (l : list (gmap string cell)) (num den : string) :
  zipM truediv (map (fun r => Num (num_at r num)) l)
       (map replace_zero (map (fun r => Num (num_at r den)) l)) =
  Ok (map (fun r => Num (spec_ratio (num_at r num) (num_at r den))) l).
Proof.
  induction l as [|r l IH]; [done|].
  cbn [map zipM]. rewrite truediv_replace_zero.
  apply bind_Ok. eexists. split; [reflexivity|].
  apply bind_Ok. eexists. split; [exact IH | reflexivity].
Qed.

Lemma ratio_numeric (df : DataFrame) (num den : string) :
  num ∈ columns df -> den ∈ columns df ->
  Forall (fun r : gmap string cell => exists x, r !! num = Some (Num x)) (rows df) ->
  Forall (fun r : gmap string cell => exists x, r !! den = Some (Num x)) (rows df) ->
  ratio df num den =
  Ok (map (fun r => Num (spec_ratio (num_at r num) (num_at r den))) (rows df)).
Proof.
  intros Hn Hd Hnn Hdn. unfold ratio.
  rewrite (getcol_numeric df num), (getcol_numeric df den) by done.
  apply zipM_truediv.
Qed.

Lemma setcol_map_rows (df : DataFrame) (col : string)
    (h : gmap string cell -> cell) :
  rows (setcol df col (map h (rows df))) =
  map (fun r => <[col := h r]> r) (rows df).
Proof. simpl. induction (rows df) as [|r l IH]; simpl; [done | by rewrite IH]. Qed.

Lemma setcol_columns_fresh (df : DataFrame) (col : string) (vals : list cell) :
  col ∉ columns df -> columns (setcol df col vals) = columns df ++ [col].
Proof. intros H%has_column_not_elem. simpl. by rewrite H. Qed.

Lemma num_at_insert_ne (r : gmap string cell) (c col : string) (v : cell) :
  c <> col -> num_at (<[c := v]> r) col = num_at r col.
Proof. intros H. unfold num_at. by rewrite lookup_insert_ne. Qed.

Lemma add_ratio_step (df : DataFrame) (name num den : string) :
  num ∈ columns df -> den ∈ columns df ->
  Forall (fun r : gmap string cell => exists x, r !! num = Some (Num x)) (rows df) ->
  Forall (fun r : gmap string cell => exists x, r !! den = Some (Num x)) (rows df) ->
  name ∉ columns df ->
  exists v,
    ratio df num den = Ok v /\
    setcol df name v =
    {| columns := columns df ++ [name];
       rows := map (fun r => <[name := Num (spec_ratio (num_at r num) (num_at r den))]> r)
                   (rows df) |}.
Proof.
  intros Hn Hd Hnn Hdn Hfresh. eexists. split; [by apply ratio_numeric|].
  pose proof (setcol_map_rows df name
    (fun r => Num (spec_ratio (num_at r num) (num_at r den)))) as Hrows.
  pose proof (setcol_columns_fresh df name
    (map (fun r => Num (spec_ratio (num_at r num) (num_at r den))) (rows df)) Hfresh)
    as Hcols.
  destruct (setcol df name _) as [cs rs]. simpl in *. by subst.
Qed.

Lemma numeric_after_insert (l : list (gmap string cell)) (name c : string)
    (h : gmap string cell -> cell) :
  name <> c ->
  Forall (fun r : gmap string cell => exists x, r !! c = Some (Num x)) l ->
  Forall (fun r : gmap string cell => exists x, r !! c = Some (Num x))
         (map (fun r => <[name := h r]> r) l).
Proof.
  intros Hne H. apply Forall_map. eapply Forall_impl; [exact H|].
  intros r (x & Hx). exists x. simpl. by rewrite lookup_insert_ne.
Qed.

Lemma numeric_inputs_at (df : DataFrame) (c : string) :
  numeric_inputs df -> c ∈ ratio_inputs ->
  c ∈ columns df /\
  Forall (fun r : gmap string cell => exists x, r !! c = Some (Num x)) (rows df).
Proof.
  intros [Hc Hr] Hin. split; [by apply Hc|].
  eapply Forall_impl; [exact Hr|]. intros r H. by apply H.
Qed.

(** On numeric inputs [add_features] returns, appends the three columns, and
    computes each row from that row alone. *)
Lemma add_features_numeric (df : DataFrame) :
  numeric_inputs df ->
  (forall c, c ∈ ratio_outputs -> c ∉ columns df) ->
  add_features df =
  Ok {| columns := columns df ++ ratio_outputs;
        rows := map spec_features_row (rows df) |}.
Proof.
  intros Hnum Hfresh.
  destruct (numeric_inputs_at df "GDP" Hnum) as [Hg Hgn]; [in_strings|].
  destruct (numeric_inputs_at df "Population" Hnum) as [Hp Hpn]; [in_strings|].
  destruct (numeric_inputs_at df "under-five deaths" Hnum) as [Hu Hun]; [in_strings|].
  destruct (numeric_inputs_at df "infant deaths" Hnum) as [Hi Hin]; [in_strings|].
  destruct (numeric_inputs_at df "Total expenditure" Hnum) as [Ht Htn]; [in_strings|].
  assert (F1 : "GDP_per_capita" ∉ columns df) by (apply Hfresh; in_strings).
  assert (F2 : "Child_mortality_ratio" ∉ columns df) by (apply Hfresh; in_strings).
  assert (F3 : "Health_expenditure_per_GDP" ∉ columns df) by (apply Hfresh; in_strings).
  unfold add_features.
  destruct (add_ratio_step df "GDP_per_capita" "GDP" "Population")
    as (v1 & Hv1 & Hs1); auto.
  rewrite Hv1. cbn [mbind result_bind]. rewrite Hs1.
  match goal with |- context [ratio ?d _ _] => set (df1 := d) end.
  destruct (add_ratio_step df1 "Child_mortality_ratio" "under-five deaths" "infant deaths")
    as (v2 & Hv2 & Hs2); subst df1; simpl columns; simpl rows.
  1,2: apply elem_of_app; by left.
  1,2: by apply numeric_after_insert.
  { apply not_elem_of_app. split; [done|]. by intros [=]%list_elem_of_singleton. }
  rewrite Hv2. cbn [mbind result_bind]. rewrite Hs2.
  simpl columns; simpl rows.
  match goal with |- context [ratio ?d _ _] => set (df2 := d) end.
  destruct (add_ratio_step df2 "Health_expenditure_per_GDP" "Total expenditure" "GDP")
    as (v3 & Hv3 & Hs3); subst df2; simpl columns; simpl rows.
  1,2: apply elem_of_app; left; apply elem_of_app; by left.
  1,2: by do 2 (apply numeric_after_insert; [done|]).
  { rewrite !not_elem_of_app. repeat split; [done|..];
      by intros [=]%list_elem_of_singleton. }
  rewrite Hv3. cbn [mbind result_bind mret result_ret]. rewrite Hs3.
  simpl columns; simpl rows. f_equal. f_equal.
  - by rewrite <- !app_assoc.
  - rewrite !map_map. apply map_ext. intros r. unfold spec_features_row.
    by rewrite !num_at_insert_ne.
Qed.

Lemma spec_ratio_zero (num den : float) :
  (den =? 0)%float = true -> spec_ratio num den = nan.
Proof. unfold spec_ratio. by intros ->. Qed.

Lemma spec_features_row_lookup (r : gmap string cell) :
  spec_features_row r !! "GDP_per_capita" =
    Some (Num (spec_ratio (num_at r "GDP") (num_at r "Population"))) /\
  spec_features_row r !! "Child_mortality_ratio" =
    Some (Num (spec_ratio (num_at r "under-five deaths") (num_at r "infant deaths"))) /\
  spec_features_row r !! "Health_expenditure_per_GDP" =
    Some (Num (spec_ratio (num_at r "Total expenditure") (num_at r "GDP"))).
Proof.
  unfold spec_features_row. repeat split.
  - rewrite lookup_insert_ne by done. rewrite lookup_insert_ne by done.
    by rewrite lookup_insert_eq.
  - rewrite lookup_insert_ne by done. by rewrite lookup_insert_eq.
  - by rewrite lookup_insert_eq.
Qed.

(** C7: on a frame whose five input columns hold numbers and which has
    none of the three new names, [add_features] appends exactly the columns
    GDP_per_capita, Child_mortality_ratio and Health_expenditure_per_GDP;
    each output row is computed from its input row alone as GDP/Population,
    under-five deaths/infant deaths and Total expenditure/GDP, so that
    reordering the rows reorders the result in the same way; and a
    denominator equal to zero gives the missing value NaN, not an infinity. *)
Theorem C7_add_features_ratios (df : DataFrame) :
  numeric_inputs df ->
  (forall c, c ∈ ratio_outputs -> c ∉ columns df) ->
  exists df',
    add_features df = Ok df' /\
    columns df' = columns df ++ ["GDP_per_capita"; "Child_mortality_ratio";
                                 "Health_expenditure_per_GDP"] /\
    rows df' = map spec_features_row (rows df) /\
    Forall2 (fun r r' : gmap string cell =>
       r' !! "GDP_per_capita" =
         Some (Num (spec_ratio (num_at r "GDP") (num_at r "Population"))) /\
       r' !! "Child_mortality_ratio" =
         Some (Num (spec_ratio (num_at r "under-five deaths") (num_at r "infant deaths"))) /\
       r' !! "Health_expenditure_per_GDP" =
         Some (Num (spec_ratio (num_at r "Total expenditure") (num_at r "GDP"))) /\
       ((num_at r "Population" =? 0)%float = true -> r' !! "GDP_per_capita" = Some NaN) /\
       ((num_at r "infant deaths" =? 0)%float = true ->
          r' !! "Child_mortality_ratio" = Some NaN) /\
       ((num_at r "GDP" =? 0)%float = true ->
          r' !! "Health_expenditure_per_GDP" = Some NaN))
      (rows df) (rows df') /\
    forall rows2 : list (gmap string cell),
      rows2 ≡ₚ rows df ->
      add_features {| columns := columns df; rows := rows2 |} =
      Ok {| columns := columns df'; rows := map spec_features_row rows2 |}.
Proof.
  intros Hnum Hfresh.
  exists {| columns := columns df ++ ratio_outputs;
            rows := map spec_features_row (rows df) |}.
  split; [by apply add_features_numeric|].
  split; [reflexivity|]. split; [reflexivity|]. split.
  - cbn [rows]. apply Forall2_fmap_r, Forall_Forall2_diag, Forall_forall.
    intros r _.
    destruct (spec_features_row_lookup r) as (L1 & L2 & L3).
    unfold compose. rewrite L1, L2, L3.
    repeat split; try done; intros Hz; by rewrite spec_ratio_zero.
  - intros rows2 Hperm.
    apply (add_features_numeric {| columns := columns df; rows := rows2 |}); [|done].
    destruct Hnum as [Hc Hr]. split; [done|]. simpl. by rewrite Hperm.
Qed.

Lemma toy_new_numeric : numeric_inputs toy_new.
Proof.
  split.
  - intros c Hc. unfold ratio_inputs in Hc.
    repeat (apply elem_of_cons in Hc as [->|Hc]); try (by apply elem_of_nil in Hc);
      unfold toy_new, toy_columns; in_strings.
  - unfold toy_new. simpl. repeat constructor; intros c Hc;
      unfold ratio_inputs in Hc;
      repeat (apply elem_of_cons in Hc as [->|Hc]);
      try (by apply elem_of_nil in Hc); by eexists.
Defined.

Lemma toy_new_fresh : forall c, c ∈ ratio_outputs -> c ∉ columns toy_new.
Proof.
  intros c Hc. unfold ratio_outputs in Hc.
  repeat (apply elem_of_cons in Hc as [->|Hc]); try (by apply elem_of_nil in Hc);
    unfold toy_new, toy_columns; simpl;
    rewrite !not_elem_of_cons; repeat split; try done; apply not_elem_of_nil.
Defined.

Lemma C7_add_features_ratios_witness :
  exists df',
    add_features toy_new = Ok df' /\
    length (columns df') = (length (columns toy_new) + 3)%nat /\
    exists r', rows df' !! 0%nat = Some r' /\ r' !! "GDP_per_capita" = Some NaN.
Proof.
  destruct (C7_add_features_ratios toy_new toy_new_numeric toy_new_fresh)
    as (df' & Hadd & Hcols & Hrows & _ & _).
  exists df'. split; [exact Hadd|]. split.
  - rewrite Hcols. reflexivity.
  - rewrite Hrows. eexists. split; [reflexivity|]. vm_compute. reflexivity.
Defined.

(** ** The preparation cell *)

Lemma method_bind_Ok {A B} (m : Method A) (f : A -> Method B)
    (self s' : DataPreprocessor) (b : B) :
  (m ≫= f) self = (Ok b, s') ->
  exists a s1, m self = (Ok a, s1) /\ f a s1 = (Ok b, s').
Proof.
  rewrite method_bind_run. destruct (m self) as [[a|e] s1]; [|discriminate].
  intros H. by exists a, s1.
Qed.

Lemma lift_Ok {A} (r : result A) (self s' : DataPreprocessor) (a : A) :
  lift r self = (Ok a, s') -> r = Ok a /\ s' = self.
Proof. unfold lift. by intros [= -> <-]. Qed.

Lemma lift_state {A} (r : result A) (self : DataPreprocessor) :
  (lift r self).2 = self.
Proof. reflexivity. Qed.

Lemma method_bind_state {A B} (m : Method A) (f : A -> Method B)
    (self : DataPreprocessor) :
  (forall a s, (f a s).2 = s) -> ((m ≫= f) self).2 = (m self).2.
Proof.
  intros Hf. rewrite method_bind_run. destruct (m self) as [[a|e] s1]; [|done].
  apply Hf.
Qed.

Lemma transform_state (data : DataFrame) (self : DataPreprocessor) :
  (transform data self).2 = self.
Proof. by rewrite transform_run. Qed.

Lemma method_ret_state {A} (a : A) (self : DataPreprocessor) :
  ((mret a : Method A) self).2 = self.
Proof. reflexivity. Qed.

(** The object after the preparation cell is the object after [fit] on the
    fit portion. *)
Lemma prepare_state (X_train X_val test_data : DataFrame) (self : DataPreprocessor) :
  (prepare X_train X_val test_data self).2 = (fit X_train self).2.
Proof.
  unfold prepare, fit_transform.
  rewrite method_bind_run.
  rewrite (method_bind_run (fit X_train)).
  destruct (fit X_train self) as [[[]|e] s1]; [|done]. simpl.
  rewrite transform_run. destruct (transform_on s1 X_train) as [x1|e]; [|done].
  rewrite method_bind_state; [apply transform_state|]. intros x2 s2.
  rewrite method_bind_state; [apply transform_state|]. intros x3 s3.
  repeat (rewrite method_bind_state; [apply lift_state|]; intros ? ?).
  apply method_ret_state.
Qed.

Lemma ratio_Ok_rows (df : DataFrame) (num den : string) (v : list cell) :
  ratio df num den = Ok v ->
  Forall2 (fun (r : gmap string cell) c => exists a b,
             r !! num = Some a /\ r !! den = Some b /\
             truediv a (replace_zero b) = Ok c)
          (rows df) v.
Proof.
  unfold ratio. intros H.
  apply bind_Ok in H as (a & [_ Ha]%getcol_Ok & H).
  apply bind_Ok in H as (b & [_ Hb]%getcol_Ok & H).
  revert b v Hb H. induction Ha as [|r x l xs Hrx _ IH]; intros b v Hb H.
  - inversion Hb; subst. simpl in H. injection H as <-. constructor.
  - inversion Hb as [|? y ? ys Hry Hys]; subst. simpl in H.
    apply bind_Ok in H as (c & Hc & H).
    apply bind_Ok in H as (cs & Hcs & [= <-]).
    constructor; [by exists x, y | by eapply IH].
Qed.

Lemma add_ratio_rows (df : DataFrame) (name num den : string) (v : list cell) :
  ratio df num den = Ok v ->
  Forall2 (feature_step name num den) (rows df) (rows (setcol df name v)).
Proof.
  intros H%ratio_Ok_rows. eapply Forall2_impl; [by apply setcol_rows|].
  intros r r' (c & (a & b & Ha & Hb & Hc) & ->). by exists a, b, c.
Qed.

Lemma add_features_rows (df df' : DataFrame) :
  add_features df = Ok df' -> Forall2 features_row (rows df) (rows df').
Proof.
  unfold add_features. intros H.
  apply bind_Ok in H as (v1 & H1 & H).
  apply bind_Ok in H as (v2 & H2 & H).
  apply bind_Ok in H as (v3 & H3 & [= <-]).
  apply (add_ratio_rows _ "GDP_per_capita") in H1.
  apply (add_ratio_rows _ "Child_mortality_ratio") in H2.
  apply (add_ratio_rows _ "Health_expenditure_per_GDP") in H3.
  assert (H23 : Forall2 (fun r1 r3 => exists r2,
      feature_step "Child_mortality_ratio" "under-five deaths" "infant deaths" r1 r2 /\
      feature_step "Health_expenditure_per_GDP" "Total expenditure" "GDP" r2 r3)
    (rows (setcol df "GDP_per_capita" v1))
    (rows (setcol (setcol (setcol df "GDP_per_capita" v1) "Child_mortality_ratio" v2)
                  "Health_expenditure_per_GDP" v3))).
  { eapply Forall2_trans; [|exact H2|exact H3]. intros r1 r2 r3 Ha Hb. eauto. }
  eapply Forall2_trans; [|exact H1|exact H23].
  intros r r1 r3 Ha (r2 & Hb & Hc). by exists r1, r2.
Qed.

Lemma drop_column_rows (df d : DataFrame) (col : string) :
  drop_column df col = Ok d -> rows d = map (delete col) (rows df).
Proof.
  unfold drop_column. destruct (has_column df col); [|discriminate].
  by intros [= <-].
Qed.

Lemma prepared_rows (s : DataPreprocessor) (x t f d : DataFrame) :
  transform_on s x = Ok t -> add_features t = Ok f ->
  drop_column f "Country" = Ok d ->
  Forall2 (prepared_row s) (rows x) (rows d).
Proof.
  intros Ht%transform_on_rows Hf%add_features_rows Hd%drop_column_rows.
  rewrite Hd. apply Forall2_fmap_r.
  eapply Forall2_trans; [|exact Ht|exact Hf].
  intros r r1 r2 H1 H2. by exists r1, r2.
Qed.

Lemma prepare_Ok (X_train X_val test_data Xt Xv Xs : DataFrame)
    (self s : DataPreprocessor) :
  prepare X_train X_val test_data self = (Ok (Xt, Xv, Xs), s) ->
  fit X_train self = (Ok tt, s) /\
  Forall2 (prepared_row s) (rows X_train) (rows Xt) /\
  Forall2 (prepared_row s) (rows X_val) (rows Xv) /\
  Forall2 (prepared_row s) (rows test_data) (rows Xs).
Proof.
  unfold prepare, fit_transform. intros H.
  apply method_bind_Ok in H as (x1 & s1 & H1 & H).
  apply method_bind_Ok in H1 as ([] & s0 & Hfit & [Ht1 ->]%transform_Ok).
  apply method_bind_Ok in H as (x2 & s2 & [Ht2 ->]%transform_Ok & H).
  apply method_bind_Ok in H as (x3 & s3 & [Ht3 ->]%transform_Ok & H).
  apply method_bind_Ok in H as (f1 & s4 & [Hf1 ->]%lift_Ok & H).
  apply method_bind_Ok in H as (f2 & s5 & [Hf2 ->]%lift_Ok & H).
  apply method_bind_Ok in H as (f3 & s6 & [Hf3 ->]%lift_Ok & H).
  apply method_bind_Ok in H as (d1 & s7 & [Hd1 ->]%lift_Ok & H).
  apply method_bind_Ok in H as (d2 & s8 & [Hd2 ->]%lift_Ok & H).
  apply method_bind_Ok in H as (d3 & s9 & [Hd3 ->]%lift_Ok & H).
  injection H as <- <- <- <-.
  repeat split; [done|..]; eapply prepared_rows; eauto.
Qed.

(** The cells after the split, once the preparation has returned. *)
Lemma workflow_run (ext : Collaborators) (train_data test_data X Xt Xv Xs : DataFrame)
    (y : list cell) (self s : DataPreprocessor) :
  drop_column train_data "Life expectancy" = Ok X ->
  getcol train_data "Life expectancy" = Ok y ->
  prepare (train_test_split ext X y).1.1 (train_test_split ext X y).1.2
          test_data self = (Ok (Xt, Xv, Xs), s) ->
  workflow ext train_data test_data self =
  (train_and_predict ext Xt Xv Xs (train_test_split ext X y).2.1
                     (train_test_split ext X y).2.2, s).
Proof.
  intros HX Hy Hp. unfold workflow.
  rewrite method_bind_run. unfold lift at 1. rewrite HX.
  rewrite method_bind_run. unfold lift at 1. rewrite Hy.
  destruct (train_test_split ext X y) as [[Xtr Xva] [ytr yva]]. simpl in *.
  rewrite method_bind_run, Hp. reflexivity.
Qed.

Lemma workflow_Ok (ext : Collaborators) (train_data test_data : DataFrame)
    (self s : DataPreprocessor) (out : float * DataFrame) :
  workflow ext train_data test_data self = (Ok out, s) ->
  exists X y Xt Xv Xs,
    drop_column train_data "Life expectancy" = Ok X /\
    getcol train_data "Life expectancy" = Ok y /\
    prepare (train_test_split ext X y).1.1 (train_test_split ext X y).1.2
            test_data self = (Ok (Xt, Xv, Xs), s) /\
    train_and_predict ext Xt Xv Xs (train_test_split ext X y).2.1
                      (train_test_split ext X y).2.2 = Ok out.
Proof.
  unfold workflow. intros H.
  apply method_bind_Ok in H as (X & s1 & [HX ->]%lift_Ok & H).
  apply method_bind_Ok in H as (y & s2 & [Hy ->]%lift_Ok & H).
  exists X, y.
  destruct (train_test_split ext X y) as [[Xtr Xva] [ytr yva]]. simpl.
  apply method_bind_Ok in H as ([[Xt Xv] Xs] & s3 & Hp & [Ht ->]%lift_Ok).
  by exists Xt, Xv, Xs.
Qed.

(** The object after the whole notebook is the object after [fit] on the
    fit portion of the split. *)
Lemma workflow_state (ext : Collaborators) (train_data test_data : DataFrame)
    (self : DataPreprocessor) :
  (workflow ext train_data test_data self).2 =
  match drop_column train_data "Life expectancy",
        getcol train_data "Life expectancy" with
  | Ok X, Ok y => (fit (train_test_split ext X y).1.1 self).2
  | _, _ => self
  end.
Proof.
  unfold workflow. rewrite method_bind_run. unfold lift at 1.
  destruct (drop_column train_data "Life expectancy") as [X|e]; [|done].
  rewrite method_bind_run. unfold lift at 1.
  destruct (getcol train_data "Life expectancy") as [y|e]; [|done].
  destruct (train_test_split ext X y) as [[Xtr Xva] [ytr yva]]. simpl.
  rewrite method_bind_state.
  - apply prepare_state.
  - intros [[Xt Xv] Xs] s. apply lift_state.
Qed.

(** C5: [transform] leaves the object as it found it, on every input and
    whether it returns or raises; the object after the preparation cell is
    the object after [fit] on the fit portion, whatever the validation and
    test frames are; and the object after the whole notebook is that same
    object (the fresh one if the target column is not there). *)
Theorem C5_state_written_by_fit_only :
  (forall (data : DataFrame) (self : DataPreprocessor),
     (transform data self).2 = self) /\
  (forall (X_train X_val test_data : DataFrame) (self : DataPreprocessor),
     (prepare X_train X_val test_data self).2 = (fit X_train self).2) /\
  (forall (ext : Collaborators) (train_data test_data : DataFrame),
     (run_workflow ext train_data test_data).2 =
     match drop_column train_data "Life expectancy",
           getcol train_data "Life expectancy" with
     | Ok X, Ok y => (fit (train_test_split ext X y).1.1 new_preprocessor).2
     | _, _ => new_preprocessor
     end).
Proof.
  split; [exact transform_state|]. split; [exact prepare_state|].
  intros ext train_data test_data. apply workflow_state.
Qed.

(** ** Zero denominators after the preparation *)

Lemma feqb_notnan (p q : float) : (p =? q)%float = true -> is_nan p = false.
Proof. intros H. exact (cell_eqb_notna (Num p) (Num q) H). Qed.

Lemma feature_step_zero (name num den : string) (r r' : gmap string cell) (p : float) :
  feature_step name num den r r' ->
  r !! den = Some (Num p) -> (p =? 0)%float = true ->
  r' !! name = Some NaN.
Proof.
  intros (a & b & v & Ha & Hb & Hv & ->) Hden Hz.
  rewrite lookup_insert_eq. f_equal.
  assert (b = Num p) as -> by congruence.
  unfold replace_zero in Hv. rewrite Hz in Hv.
  destruct a as [x|s]; [|discriminate]. simpl in Hv.
  injection Hv as <-. unfold NaN. by rewrite div_nan.
Qed.

Lemma feature_step_other (name num den col : string) (r r' : gmap string cell) :
  feature_step name num den r r' -> name <> col -> r' !! col = r !! col.
Proof. intros (a & b & v & _ & _ & _ & ->) Hne. by rewrite lookup_insert_ne. Qed.

Lemma features_row_zero (r r3 : gmap string cell) :
  features_row r r3 -> zero_denominators_missing r r3.
Proof.
  intros (r1 & r2 & H1 & H2 & H3). repeat split; intros p Hp Hz.
  - rewrite (feature_step_other _ _ _ "GDP_per_capita" _ _ H3) by done.
    rewrite (feature_step_other _ _ _ "GDP_per_capita" _ _ H2) by done.
    eapply feature_step_zero; eauto.
  - rewrite (feature_step_other _ _ _ "Child_mortality_ratio" _ _ H3) by done.
    eapply feature_step_zero; eauto.
    by rewrite (feature_step_other _ _ _ "infant deaths" _ _ H1).
  - eapply feature_step_zero; eauto.
    rewrite (feature_step_other _ _ _ "GDP" _ _ H2) by done.
    by rewrite (feature_step_other _ _ _ "GDP" _ _ H1).
Qed.

Lemma transform_row_keeps (self : DataPreprocessor) (r r' : gmap string cell)
    (col : string) (c : cell) :
  transform_row self r r' -> col <> "Status" ->
  r !! col = Some c -> isna c = false -> r' !! col = Some c.
Proof.
  intros (r1 & c0 & Hss & _ & ->) Hne Hc Hna.
  rewrite lookup_insert_ne by done. eapply fill_steps_keep; eauto.
Qed.

Lemma prepared_row_zero (self : DataPreprocessor) (r r' : gmap string cell) :
  prepared_row self r r' -> zero_denominators_missing r r'.
Proof.
  intros (r1 & r2 & Ht & Hf%features_row_zero & ->).
  destruct Hf as (Z1 & Z2 & Z3).
  repeat split; intros p Hp Hz; rewrite lookup_delete_ne by done;
    [eapply Z1|eapply Z2|eapply Z3]; eauto;
    eapply transform_row_keeps; eauto; simpl; by eapply feqb_notnan.
Qed.

(** C4, as stated, fails: with a scaler and a regressor that accept missing
    values, the notebook runs to its submission although the frame handed
    to the scaler holds an undefined ratio. *)
Lemma C4_undefined_ratio_raises_nothing :
  ~ (forall (ext : Collaborators) (train_data test_data X Xt Xv Xs : DataFrame)
            (y : list cell) (s : DataPreprocessor),
       drop_column train_data "Life expectancy" = Ok X ->
       getcol train_data "Life expectancy" = Ok y ->
       prepare (train_test_split ext X y).1.1 (train_test_split ext X y).1.2
               test_data new_preprocessor = (Ok (Xt, Xv, Xs), s) ->
       (exists (i : nat) (r : gmap string cell) (col : string) (c : cell),
          rows Xs !! i = Some r /\ r !! col = Some c /\ isna c = true) ->
       exists e, (run_workflow ext train_data test_data).1 = Raise e).
Proof.
  intros H.
  destruct (H toy_ext toy_train toy_new toy_X toy_prepared.1.1 toy_prepared.1.2
              toy_prepared.2 toy_y toy_prepared_state) as (e & He).
  - vm_compute. reflexivity.
  - vm_compute. reflexivity.
  - vm_compute. reflexivity.
  - exists 0%nat, (default ∅ (rows toy_prepared.2 !! 0%nat)), "GDP_per_capita", NaN.
    split; [vm_compute; reflexivity|]. split; [vm_compute; reflexivity|reflexivity].
  - vm_compute in He. discriminate He.
Qed.

(** C4, amended: the notebook makes no check of its own between feature
    synthesis and scaling.  When the preparation returns, the rest of the
    run is what the scaler, the regressor and the scorer return on the
    prepared frames; and in each of the three prepared frames a row whose
    input has a zero Population, zero infant deaths or zero GDP holds the
    missing value NaN in the corresponding ratio. *)
Theorem C4_undefined_ratio_reaches_scaler
    (ext : Collaborators) (train_data test_data X Xt Xv Xs : DataFrame)
    (y : list cell) (s : DataPreprocessor) :
  drop_column train_data "Life expectancy" = Ok X ->
  getcol train_data "Life expectancy" = Ok y ->
  prepare (train_test_split ext X y).1.1 (train_test_split ext X y).1.2
          test_data new_preprocessor = (Ok (Xt, Xv, Xs), s) ->
  run_workflow ext train_data test_data =
    (train_and_predict ext Xt Xv Xs (train_test_split ext X y).2.1
                       (train_test_split ext X y).2.2, s) /\
  Forall2 zero_denominators_missing (rows (train_test_split ext X y).1.1) (rows Xt) /\
  Forall2 zero_denominators_missing (rows (train_test_split ext X y).1.2) (rows Xv) /\
  Forall2 zero_denominators_missing (rows test_data) (rows Xs).
Proof.
  intros HX Hy Hp. split; [by apply workflow_run|].
  apply prepare_Ok in Hp as (_ & H1 & H2 & H3).
  repeat split; (eapply Forall2_impl; [eassumption|]);
    intros r r'; apply prepared_row_zero.
Qed.

Lemma C4_undefined_ratio_reaches_scaler_witness :
  (exists out, (run_workflow toy_ext toy_train toy_new).1 = Ok out) /\
  exists r', rows toy_prepared.2 !! 0%nat = Some r' /\
             r' !! "GDP_per_capita" = Some NaN.
Proof.
  destruct (C4_undefined_ratio_reaches_scaler toy_ext toy_train toy_new toy_X
              toy_prepared.1.1 toy_prepared.1.2 toy_prepared.2 toy_y
              toy_prepared_state) as (Hrun & _ & _ & Hz).
  - vm_compute. reflexivity.
  - vm_compute. reflexivity.
  - vm_compute. reflexivity.
  - split.
    + rewrite Hrun. vm_compute. eexists. reflexivity.
    + destruct (Forall2_lookup_l _ _ _ 0%nat _ Hz eq_refl) as (r' & Hi & Z1 & _ & _).
      exists r'. split; [exact Hi|]. apply (Z1 0%float); reflexivity.
Defined.

(** ** The submission *)

Lemma train_and_predict_Ok (ext : Collaborators) (Xt Xv Xs : DataFrame)
    (yt yv : list cell) (r2 : float) (sub : DataFrame) :
  train_and_predict ext Xt Xv Xs yt yv = Ok (r2, sub) ->
  exists (sc : scaler ext) (m : regressor ext) (M : Matrix) (p : list float),
    scaler_transform ext sc Xs = Ok M /\
    lgb_predict ext m M = Ok p /\
    sub = submission_frame p.
Proof.
  unfold train_and_predict. intros H.
  apply bind_Ok in H as (sc & _ & H).
  apply bind_Ok in H as (Mt & _ & H).
  apply bind_Ok in H as (Mv & _ & H).
  apply bind_Ok in H as (Ms & HMs & H).
  apply bind_Ok in H as (m & _ & H).
  apply bind_Ok in H as (pv & _ & H).
  apply bind_Ok in H as (r & _ & H).
  apply bind_Ok in H as (p & Hp & [= _ <-]).
  by exists sc, m, Ms, p.
Qed.

(** * Further properties of the notebook's code *)

(** ** [transform]: what it keeps *)

(** X1: [transform] never changes a value that is not missing, in any
    column other than Status, fitted or not. *)
Theorem transform_keeps_present_values
    (x x' : DataFrame) (self self' : DataPreprocessor) (col : string) (i : nat)
    (r : gmap string cell) (c : cell) :
  transform x self = (Ok x', self') ->
  col <> "Status" ->
  rows x !! i = Some r -> r !! col = Some c -> isna c = false ->
  exists r', rows x' !! i = Some r' /\ r' !! col = Some c.
Proof.
  intros [Ht _]%transform_Ok Hne Hi Hc Hna. eapply transform_on_keeps; eauto.
Qed.

Lemma transform_keeps_present_values_witness :
  exists r', rows (frame_or toy_fit (transform_on toy_fitted toy_fit)) !! 1%nat = Some r' /\
             r' !! "GDP" = Some (Num 5).
Proof.
  apply (transform_keeps_present_values toy_fit _ toy_fitted toy_fitted "GDP" 1
           (toy_row "B" (Str "Developed") 5 2 3 1 7) (Num 5)).
  - rewrite transform_run. vm_compute. reflexivity.
  - discriminate.
  - reflexivity.
  - vm_compute. reflexivity.
  - reflexivity.
Defined.

(** X2: the codes of Status.  On every input on which [transform] returns,
    Developing becomes 0 and Developed becomes 1, whatever was fitted. *)
Theorem transform_encodes_status
    (x x' : DataFrame) (self self' : DataPreprocessor) (i : nat)
    (r : gmap string cell) :
  transform x self = (Ok x', self') ->
  rows x !! i = Some r ->
  exists r', rows x' !! i = Some r' /\
    (r !! "Status" = Some (Str "Developing") -> r' !! "Status" = Some (Num 0)) /\
    (r !! "Status" = Some (Str "Developed") -> r' !! "Status" = Some (Num 1)).
Proof.
  intros [Ht _]%transform_Ok Hi. apply transform_on_rows in Ht.
  destruct (Forall2_lookup_l _ _ _ _ _ Ht Hi) as (r'' & Hi' & r1 & c0 & Hss & Hc0 & ->).
  eexists. split; [exact Hi'|].
  split; intros Hs; rewrite lookup_insert_eq; f_equal;
    (assert (r1 !! "Status" = Some (Str "Developing") \/
             r1 !! "Status" = Some (Str "Developed")) as [H|H]
       by (first [left; by eapply fill_steps_keep | right; by eapply fill_steps_keep]));
    rewrite H in Hc0; injection Hc0 as <-; try reflexivity;
    pose proof (fill_steps_keep _ _ _ _ _ _ Hss Hs eq_refl) as H'; congruence.
Qed.

Lemma transform_encodes_status_witness :
  exists r', rows (frame_or toy_fit (transform_on toy_fitted toy_fit)) !! 1%nat = Some r' /\
             r' !! "Status" = Some (Num 1).
Proof.
  destruct (transform_encodes_status toy_fit
              (frame_or toy_fit (transform_on toy_fitted toy_fit))
              toy_fitted toy_fitted 1 (toy_row "B" (Str "Developed") 5 2 3 1 7))
    as (r' & Hi & _ & H1).
  - rewrite transform_run. vm_compute. reflexivity.
  - reflexivity.
  - exists r'. split; [exact Hi|]. apply H1. vm_compute. reflexivity.
Defined.

(** ** [transform]: the shape of the result *)

Lemma fill_step_dom (self : DataPreprocessor) (col : string) (r r' : gmap string cell) :
  fill_step self col r r' -> dom r' = dom r.
Proof.
  intros (v & Hv & ->). apply fill_on_inv in Hv as (c & Hc & _).
  apply dom_insert_lookup_L. eauto.
Qed.

Lemma fill_steps_dom (self : DataPreprocessor) (cols : list string)
    (r r' : gmap string cell) :
  fill_steps self cols r r' -> dom r' = dom r.
Proof.
  induction 1 as [|col cols r r1 r2 Hs _ IH]; [done|].
  rewrite IH. by eapply fill_step_dom.
Qed.

Lemma transform_row_dom (self : DataPreprocessor) (r r' : gmap string cell) :
  transform_row self r r' -> dom r' = dom r.
Proof.
  intros (r1 & c & Hss & Hc & ->).
  rewrite dom_insert_lookup_L by eauto. by eapply fill_steps_dom.
Qed.

Lemma wf_frame_rows (cols : list string) (l l' : list (gmap string cell)) :
  Forall2 (fun r r' : gmap string cell => dom r' = dom r) l l' ->
  wf_frame {| columns := cols; rows := l |} ->
  wf_frame {| columns := cols; rows := l' |}.
Proof.
  unfold wf_frame. simpl. intros H Hwf.
  induction H as [|r r' l l' Hd _ IH]; [constructor|].
  apply Forall_cons in Hwf as [Hr Hl]. constructor; [|by apply IH].
  intros c. rewrite Hr. rewrite <- !elem_of_dom. by rewrite Hd.
Qed.

Lemma impute_on_columns (self : DataPreprocessor) (data data' : DataFrame)
    (col : string) :
  impute_on self data col = Ok data' ->
  wf_frame data -> rows data <> [] ->
  columns data' = columns data.
Proof.
  unfold impute_on. intros H Hwf Hne.
  apply bind_Ok in H as (newcol & Hm & [= <-]). apply mapM_Ok in Hm.
  simpl. destruct (rows data) as [|r l] eqn:E; [done|].
  inversion Hm as [|? v ? vs Hv _]; subst.
  apply fill_on_inv in Hv as (c & Hc & _).
  unfold wf_frame in Hwf. rewrite E in Hwf. apply Forall_cons in Hwf as [Hr _].
  assert (Hin : col ∈ columns data) by (apply Hr; eauto).
  apply has_column_elem in Hin. by rewrite Hin.
Qed.

Lemma fold_impute_columns (self : DataPreprocessor) (cols : list string)
    (data data' : DataFrame) :
  fold_result (impute_on self) cols data = Ok data' ->
  wf_frame data -> rows data <> [] ->
  columns data' = columns data.
Proof.
  revert data. induction cols as [|col cols IH]; intros data; simpl.
  - by intros [= <-].
  - intros H Hwf Hne. apply bind_Ok in H as (d1 & H1 & H2).
    pose proof (impute_on_columns _ _ _ _ H1 Hwf Hne) as Hc1.
    pose proof (impute_on_rows _ _ _ _ H1) as Hr1.
    rewrite <- Hc1. apply IH; [done| |].
    + destruct data as [cs rs], d1 as [cs1 rs1]. simpl in *. subst cs1.
      eapply wf_frame_rows; [|exact Hwf].
      eapply Forall2_impl; [exact Hr1|]. intros r r'. apply fill_step_dom.
    + intros E. rewrite E in Hr1. apply Forall2_nil_inv_r in Hr1. done.
Qed.

Lemma encode_status_columns (data data' : DataFrame) :
  encode_status data = Ok data' -> columns data' = columns data.
Proof.
  unfold encode_status. intros H. apply bind_Ok in H as (st & Hst & [= <-]).
  apply getcol_Ok in Hst as [Hc _]. simpl. by rewrite Hc.
Qed.

(** X3: [transform] keeps the shape of its input.  The result has as many
    rows, each row has cells at the same columns, and on a well-formed
    frame with at least one row the column index is unchanged and the
    result is well-formed. *)
Theorem transform_keeps_shape (x x' : DataFrame) (self self' : DataPreprocessor) :
  transform x self = (Ok x', self') ->
  length (rows x') = length (rows x) /\
  Forall2 (fun r r' : gmap string cell => dom r' = dom r) (rows x) (rows x') /\
  (wf_frame x -> rows x <> [] -> columns x' = columns x /\ wf_frame x').
Proof.
  intros [Ht _]%transform_Ok.
  assert (Hd : Forall2 (fun r r' : gmap string cell => dom r' = dom r) (rows x) (rows x')).
  { eapply Forall2_impl; [by apply transform_on_rows|].
    intros r r'. apply transform_row_dom. }
  split; [symmetry; by eapply Forall2_length|]. split; [done|].
  intros Hwf Hne.
  assert (Hc : columns x' = columns x).
  { unfold transform_on in Ht. apply bind_Ok in Ht as (d1 & H1 & H2).
    rewrite (encode_status_columns _ _ H2). by eapply fold_impute_columns. }
  split; [done|].
  destruct x as [cs rs], x' as [cs' rs']. simpl in *. subst cs'.
  by eapply wf_frame_rows.
Qed.

Lemma toy_row_columns (country : string) (status : cell)
    (g p u i e : float) (c : string) :
  c ∈ toy_columns <-> is_Some (toy_row country status g p u i e !! c).
Proof.
  rewrite <- elem_of_dom. unfold toy_columns, toy_row.
  rewrite !dom_insert_L, dom_singleton_L. rewrite !elem_of_cons, elem_of_nil.
  rewrite !elem_of_union, !elem_of_singleton. tauto.
Defined.

Lemma toy_new_wf : wf_frame toy_new.
Proof.
  unfold wf_frame, toy_new. simpl.
  repeat (apply List.Forall_cons; [apply toy_row_columns|]). apply List.Forall_nil.
Defined.

Lemma transform_keeps_shape_witness :
  length (rows (frame_or toy_new (transform_on toy_fitted toy_new))) = 2%nat /\
  columns (frame_or toy_new (transform_on toy_fitted toy_new)) = toy_columns.
Proof.
  destruct (transform_keeps_shape toy_new
              (frame_or toy_new (transform_on toy_fitted toy_new))
              toy_fitted toy_fitted) as (Hlen & _ & Hcols).
  - rewrite transform_run. vm_compute. reflexivity.
  - split; [exact Hlen|]. apply Hcols; [exact toy_new_wf | discriminate].
Defined.

(** ** [transform]: the fallback and the second pass *)

(** X4: a row whose Country does not occur in the fit data gets, for a
    missing value of a fitted column, the median of that column over the
    fit data. *)
Theorem transform_unseen_country_median
    (d x x' : DataFrame) (self self' : DataPreprocessor) (col : string)
    (keys : list cell) (i : nat) (r : gmap string cell) (k c : cell) :
  fit d new_preprocessor = (Ok tt, self) ->
  col ∈ cols_with_na d ->
  getcol d "Country" = Ok keys ->
  transform x self = (Ok x', self') ->
  col <> "Status" ->
  rows x !! i = Some r ->
  r !! "Country" = Some k -> isna k = false ->
  (forall k0, k0 ∈ keys -> cell_eqb k0 k = false) ->
  r !! col = Some c -> isna c = true ->
  exists med r',
    median d col = Ok med /\ rows x' !! i = Some r' /\ r' !! col = Some (Num med).
Proof.
  intros. eapply transform_unseen_country_gets_median; eauto.
Qed.

Lemma transform_unseen_country_median_witness :
  exists r', rows (frame_or toy_new (transform_on toy_fitted toy_new)) !! 0%nat = Some r' /\
             r' !! "GDP" = Some (Num 6).
Proof.
  destruct (transform_unseen_country_median toy_fit toy_new
              (frame_or toy_new (transform_on toy_fitted toy_new))
              toy_fitted toy_fitted "GDP" [Str "A"; Str "B"; Str "B"] 0
              (toy_row "C" (Str "Unknown") nan 0 4 2 5) (Str "C") (Num nan))
    as (med & r' & Hmed & Hi & Hr).
  - vm_compute. reflexivity.
  - unfold cols_with_na. apply list_elem_of_In, filter_In. split.
    + simpl. auto.
    + vm_compute. reflexivity.
  - vm_compute. reflexivity.
  - rewrite transform_run. vm_compute. reflexivity.
  - discriminate.
  - reflexivity.
  - vm_compute. reflexivity.
  - reflexivity.
  - intros k0 Hk0. repeat (apply elem_of_cons in Hk0 as [->|Hk0]);
      try reflexivity. by apply elem_of_nil in Hk0.
  - vm_compute. reflexivity.
  - reflexivity.
  - vm_compute in Hmed. injection Hmed as <-. exists r'. by split.
Defined.

Lemma fill_steps_defined (self : DataPreprocessor) (cols : list string) (col : string)
    (r r' : gmap string cell) :
  fill_steps self cols r r' -> col ∈ cols -> is_Some (r !! col).
Proof.
  induction 1 as [|col0 cols r r1 r2 Hs _ IH]; [by intros ?%elem_of_nil|].
  intros Hin. destruct (decide (col0 = col)) as [->|Hne].
  - destruct Hs as (v & Hv & _). apply fill_on_inv in Hv as (c & Hc & _). eauto.
  - apply elem_of_cons in Hin as [->|Hin]; [done|].
    rewrite <- (fill_step_other _ _ _ _ _ Hs Hne). by apply IH.
Qed.

(** X5: a second [transform] changes nothing but Status.  In a row whose
    Country is not missing, every other column holds after the second pass
    what it held after the first. *)
Theorem transform_twice_stable_off_status
    (x x1 x2 : DataFrame) (self self1 self2 : DataPreprocessor) (col : string)
    (i : nat) (r : gmap string cell) (k : cell) :
  transform x self = (Ok x1, self1) ->
  transform x1 self1 = (Ok x2, self2) ->
  col <> "Status" ->
  rows x !! i = Some r ->
  r !! "Country" = Some k -> isna k = false ->
  exists r1 r2,
    rows x1 !! i = Some r1 /\ rows x2 !! i = Some r2 /\ r2 !! col = r1 !! col.
Proof.
  intros [H1 ->]%transform_Ok [H2 _]%transform_Ok Hne Hi Hk Hkna.
  apply transform_on_rows in H1. apply transform_on_rows in H2.
  destruct (Forall2_lookup_l _ _ _ _ _ H1 Hi) as (r1 & Hi1 & ra & ca & Hssa & _ & ->).
  destruct (Forall2_lookup_l _ _ _ _ _ H2 Hi1) as (r2 & Hi2 & rb & cb & Hssb & _ & ->).
  eexists _, _. split; [exact Hi1|]. split; [exact Hi2|].
  rewrite !lookup_insert_ne by done.
  set (r1 := <["Status" := status_map ca]> ra) in *.
  assert (Hk1 : r1 !! "Country" = Some k).
  { unfold r1. rewrite lookup_insert_ne by done. eapply fill_steps_keep; eauto. }
  assert (Hcol1 : r1 !! col = ra !! col) by (unfold r1; by rewrite lookup_insert_ne).
  rewrite <- Hcol1.
  destruct (decide (col ∈ PyDict.keys (means_by_country self))) as [Hin|Hnin].
  - destruct (fill_steps_defined _ _ _ _ _ Hssa Hin) as (c & Hc).
    destruct (isna c) eqn:Hcna.
    + apply pydict_get_keys in Hin as Hser. destruct Hser as (ser & Hser).
      destruct (fill_steps_fill self _ col r ra k c ser Hssa)
        as (med & Hmed & Hra); auto.
      rewrite Hcol1, Hra. eapply fill_steps_fixed; eauto. congruence.
    + pose proof (fill_steps_keep _ _ _ _ _ _ Hssa Hc Hcna) as Hra.
      rewrite Hcol1, Hra. eapply fill_steps_keep; eauto. congruence.
  - by eapply fill_steps_other.
Qed.

Lemma transform_twice_stable_off_status_witness :
  exists r1 r2,
    rows (frame_or toy_new (transform_on toy_fitted toy_new)) !! 0%nat = Some r1 /\
    rows (frame_or toy_new (transform_on toy_fitted
            (frame_or toy_new (transform_on toy_fitted toy_new)))) !! 0%nat = Some r2 /\
    r2 !! "GDP" = r1 !! "GDP".
Proof.
  apply (transform_twice_stable_off_status toy_new _ _ toy_fitted toy_fitted toy_fitted
           "GDP" 0 (toy_row "C" (Str "Unknown") nan 0 4 2 5) (Str "C")).
  - rewrite transform_run. vm_compute. reflexivity.
  - rewrite transform_run. vm_compute. reflexivity.
  - discriminate.
  - reflexivity.
  - vm_compute. reflexivity.
  - reflexivity.
Defined.

(** ** [fit]: edge cases and repetition *)

Lemma filter_all_false {A} (f : A -> bool) (l : list A) :
  (forall a, a ∈ l -> f a = false) -> List.filter f l = [].
Proof.
  induction l as [|a l IH]; [done|]. intros H. simpl.
  rewrite (H a) by (by left). apply IH. intros b Hb. apply H. by right.
Qed.

(** X6: on data with no missing value [fit] learns nothing: it returns and
    leaves the object as it was, whether or not there is a Country column. *)
Theorem fit_complete_data_learns_nothing (d : DataFrame) (self : DataPreprocessor) :
  (forall c, c ∈ columns d -> isna_any d c = false) ->
  fit d self = (Ok tt, self).
Proof.
  intros H. unfold fit, cols_with_na. by rewrite filter_all_false.
Qed.

Lemma fit_complete_data_learns_nothing_witness :
  fit toy_complete toy_fitted = (Ok tt, toy_fitted).
Proof.
  apply (fit_complete_data_learns_nothing toy_complete toy_fitted).
  intros c Hc. unfold toy_complete, toy_columns in Hc. simpl in Hc.
  repeat (apply elem_of_cons in Hc as [->|Hc]); try (vm_compute; reflexivity).
  by apply elem_of_nil in Hc.
Defined.

(** X7: on data with a missing value and no Country column [fit] raises
    KeyError 'Country' at the first column it looks at, and writes nothing. *)
Theorem fit_without_country_raises (d : DataFrame) (self : DataPreprocessor) :
  has_column d "Country" = false ->
  cols_with_na d <> [] ->
  fit d self = (Raise (KeyError "Country"), self).
Proof.
  intros Hc Hne. unfold fit. destruct (cols_with_na d) as [|c cs]; [done|].
  rewrite for_each_cons_run, fit_column_run.
  unfold groupby_mean, getcol. by rewrite Hc.
Qed.

Lemma fit_without_country_raises_witness :
  fit toy_no_country new_preprocessor = (Raise (KeyError "Country"), new_preprocessor).
Proof.
  apply (fit_without_country_raises toy_no_country new_preprocessor).
  - reflexivity.
  - vm_compute. discriminate.
Defined.

Lemma pydict_set_id {V} (k : string) (v : V) (d : PyDict.t V) :
  PyDict.get k d = Some v -> PyDict.set k v d = d.
Proof.
  induction d as [|[k' v'] d IH]; simpl; [discriminate|].
  destruct (String.eqb k' k) eqn:E.
  - by intros [= ->].
  - intros H. by rewrite IH.
Qed.

Lemma fit_column_recorded (d : DataFrame) (c : string) (s : DataPreprocessor) :
  recorded d c s -> fit_column d c s = ((fit_column d c s).1, s).
Proof.
  unfold recorded. rewrite fit_column_run.
  destruct (groupby_mean d c) as [m|e]; [|done]. intros [Hm Hmd]. simpl.
  rewrite (pydict_set_id _ _ _ Hm).
  destruct (median d c) as [md|e]; simpl.
  - rewrite (pydict_set_id _ _ _ Hmd). by destruct s.
  - by destruct s.
Qed.

Lemma fit_column_records (d : DataFrame) (c : string) (s s' : DataPreprocessor)
    (r : result unit) :
  fit_column d c s = (r, s') -> recorded d c s'.
Proof.
  unfold recorded. rewrite fit_column_run.
  destruct (groupby_mean d c) as [m|e]; [|done]. simpl.
  destruct (median d c) as [md|e]; intros [= _ <-]; simpl;
    by rewrite ?pydict_get_set_eq.
Qed.

Lemma fit_column_result (d : DataFrame) (c : string) (s s' : DataPreprocessor) :
  (fit_column d c s).1 = (fit_column d c s').1.
Proof.
  rewrite !fit_column_run. destruct (groupby_mean d c); [|done].
  simpl. by destruct (median d c).
Qed.

Lemma fit_column_keeps_recorded (d : DataFrame) (c c' : string)
    (s s' : DataPreprocessor) (r : result unit) :
  recorded d c s -> fit_column d c' s = (r, s') -> recorded d c s'.
Proof.
  intros Hrec H. destruct (decide (c' = c)) as [->|Hne].
  - by eapply fit_column_records.
  - destruct (fit_column_other d c' c s s' r H Hne) as [Hm Hmd].
    unfold recorded in *. by rewrite Hm, Hmd.
Qed.

Lemma fit_columns_keep_recorded (d : DataFrame) (cols : list string) (c : string)
    (s s' : DataPreprocessor) (r : result unit) :
  recorded d c s -> for_each cols (fit_column d) s = (r, s') -> recorded d c s'.
Proof.
  revert s. induction cols as [|c' cols IH]; intros s Hrec.
  - by intros [= _ <-].
  - rewrite for_each_cons_run.
    destruct (fit_column d c' s) as [[[]|e] s1] eqn:E.
    + apply IH. by eapply fit_column_keeps_recorded.
    + intros [= _ <-]. by eapply fit_column_keeps_recorded.
Qed.

(** X8: [fit] is idempotent.  Calling it again on the same data, on the
    object the first call left, gives the same outcome (the same return or
    the same exception) and leaves that object unchanged. *)
Theorem fit_twice_same_as_once
    (d : DataFrame) (self s1 : DataPreprocessor) (r : result unit) :
  fit d self = (r, s1) -> fit d s1 = (r, s1).
Proof.
  unfold fit. generalize (cols_with_na d). intros cols. revert self.
  induction cols as [|c cols IH]; intros self.
  - by intros [= <- <-].
  - rewrite !for_each_cons_run.
    destruct (fit_column d c self) as [res sc] eqn:E. intros H.
    pose proof (fit_column_records _ _ _ _ _ E) as Hrec.
    assert (Hrec1 : recorded d c s1).
    { destruct res as [[]|e].
      - by eapply fit_columns_keep_recorded.
      - by injection H as _ <-. }
    rewrite (fit_column_recorded d c s1 Hrec1).
    rewrite (fit_column_result d c s1 self), E. simpl.
    destruct res as [[]|e]; [by eapply IH|]. by injection H as <- _.
Qed.

Lemma fit_twice_same_as_once_witness :
  fit toy_fit toy_fitted = (Ok tt, toy_fitted).
Proof.
  apply (fit_twice_same_as_once toy_fit new_preprocessor toy_fitted (Ok tt)).
  vm_compute. reflexivity.
Defined.

(** ** [add_features]: errors, what it keeps, and repetition *)

Lemma has_column_setcol (df : DataFrame) (c c' : string) (v : list cell) :
  c <> c' -> has_column (setcol df c v) c' = has_column df c'.
Proof.
  intros Hne. unfold has_column at 1. simpl.
  destruct (has_column df c); [done|].
  rewrite existsb_app. simpl. fold (has_column df c').
  assert (String.eqb c' c = false) as -> by (apply String.eqb_neq; congruence).
  by rewrite !orb_false_r.
Qed.

Lemma ratio_Ok_columns (df : DataFrame) (num den : string) (v : list cell) :
  ratio df num den = Ok v ->
  has_column df num = true /\ has_column df den = true /\
  length v = length (rows df).
Proof.
  intros H. pose proof (ratio_Ok_rows _ _ _ _ H) as Hrows.
  unfold ratio in H.
  apply bind_Ok in H as (a & [Ha _]%getcol_Ok & H).
  apply bind_Ok in H as (b & [Hb _]%getcol_Ok & _).
  repeat split; try done. symmetry. by eapply Forall2_length.
Qed.

(** X9: [add_features] does not return when one of the five columns it
    reads is absent from the index. *)
Theorem add_features_missing_input_raises (df : DataFrame) (c : string) :
  c ∈ ratio_inputs ->
  has_column df c = false ->
  exists e, add_features df = Raise e.
Proof.
  intros Hin Hc. destruct (add_features df) as [df'|e] eqn:E; [|by eexists].
  exfalso. unfold add_features in E.
  apply bind_Ok in E as (v1 & H1 & E).
  apply bind_Ok in E as (v2 & H2 & E).
  apply bind_Ok in E as (v3 & H3 & _).
  apply ratio_Ok_columns in H1 as (Hg & Hp & _).
  apply ratio_Ok_columns in H2 as (Hu & Hi & _).
  apply ratio_Ok_columns in H3 as (Ht & _ & _).
  rewrite has_column_setcol in Hu, Hi by done.
  rewrite !has_column_setcol in Ht by done.
  unfold ratio_inputs in Hin.
  repeat (apply elem_of_cons in Hin as [->|Hin]); try congruence.
  by apply elem_of_nil in Hin.
Qed.

Lemma add_features_missing_input_raises_witness :
  exists e, add_features toy_no_country = Raise e.
Proof.
  apply (add_features_missing_input_raises toy_no_country "Population").
  - in_strings.
  - reflexivity.
Defined.

Lemma feature_step_num (name num den : string) (r r' : gmap string cell) :
  feature_step name num den r r' -> exists x, r' !! name = Some (Num x).
Proof.
  intros (a & b & v & _ & _ & Hv & ->). rewrite lookup_insert_eq.
  destruct a as [x|]; [|discriminate]. simpl in Hv.
  destruct (replace_zero b) as [y|]; [|discriminate]. injection Hv as <-. eauto.
Qed.

(** X10: when [add_features] returns, the result has as many rows as the
    input, every cell of every column other than the three ratios is what
    it was, and each of the three ratios holds a number (possibly NaN),
    never text. *)
Theorem add_features_keeps_other_columns (df df' : DataFrame) :
  add_features df = Ok df' ->
  length (rows df') = length (rows df) /\
  Forall2 (fun r r' : gmap string cell =>
             (forall c, c ∉ ratio_outputs -> r' !! c = r !! c) /\
             (forall c, c ∈ ratio_outputs -> exists x, r' !! c = Some (Num x)))
          (rows df) (rows df').
Proof.
  intros H%add_features_rows.
  split; [symmetry; by eapply Forall2_length|].
  eapply Forall2_impl; [exact H|].
  intros r r3 (r1 & r2 & H1 & H2 & H3). split.
  - intros c Hc. unfold ratio_outputs in Hc.
    rewrite !not_elem_of_cons in Hc. destruct Hc as (N1 & N2 & N3 & _).
    rewrite (feature_step_other _ _ _ c _ _ H3) by congruence.
    rewrite (feature_step_other _ _ _ c _ _ H2) by congruence.
    by rewrite (feature_step_other _ _ _ c _ _ H1) by congruence.
  - intros c Hc. unfold ratio_outputs in Hc.
    repeat (apply elem_of_cons in Hc as [->|Hc]); [| |by eapply feature_step_num|
                                                    by apply elem_of_nil in Hc].
    + rewrite (feature_step_other _ _ _ "GDP_per_capita" _ _ H3) by done.
      rewrite (feature_step_other _ _ _ "GDP_per_capita" _ _ H2) by done.
      by eapply feature_step_num.
    + rewrite (feature_step_other _ _ _ "Child_mortality_ratio" _ _ H3) by done.
      by eapply feature_step_num.
Qed.

Lemma add_features_keeps_other_columns_witness :
  length (rows (frame_or toy_new (add_features toy_new))) = 2%nat.
Proof.
  destruct (add_features_keeps_other_columns toy_new
              (frame_or toy_new (add_features toy_new))) as [Hlen _].
  - vm_compute. reflexivity.
  - exact Hlen.
Defined.

Lemma getcol_after_setcol (d : DataFrame) (c col : string) (v : list cell) :
  length v = length (rows d) -> c <> col ->
  getcol (setcol d c v) col = getcol d col.
Proof.
  intros Hlen Hne. unfold getcol. rewrite has_column_setcol by done.
  destruct (has_column d col); [|done]. simpl.
  generalize dependent v. induction (rows d) as [|r l IH]; intros v Hlen.
  - by destruct v.
  - destruct v as [|x v]; [discriminate|]. injection Hlen as Hlen.
    cbn [zip_with]. 
    change (mapM ?f (?a :: ?k)) with (y ← f a; ys ← mapM f k; mret (y :: ys)).
    cbv beta. rewrite lookup_insert_ne by done. by rewrite IH.
Qed.

Lemma ratio_after_setcol (d : DataFrame) (c num den : string) (v : list cell) :
  length v = length (rows d) -> c <> num -> c <> den ->
  ratio (setcol d c v) num den = ratio d num den.
Proof. intros. unfold ratio. by rewrite !getcol_after_setcol. Qed.

Lemma setcol_length (d : DataFrame) (c : string) (v : list cell) :
  length v = length (rows d) -> length (rows (setcol d c v)) = length (rows d).
Proof.
  simpl. generalize dependent v. induction (rows d) as [|r l IH]; intros v Hlen.
  - by destruct v.
  - destruct v as [|x v]; [discriminate|]. injection Hlen as Hlen.
    simpl. by rewrite IH.
Qed.

Lemma setcol_lookup (d : DataFrame) (c : string) (v : list cell) :
  length v = length (rows d) ->
  Forall2 (fun (r : gmap string cell) x => r !! c = Some x) (rows (setcol d c v)) v.
Proof.
  simpl. generalize dependent v. induction (rows d) as [|r l IH]; intros v Hlen.
  - destruct v; [constructor | discriminate].
  - destruct v as [|x v]; [discriminate|]. injection Hlen as Hlen.
    simpl. constructor; [by rewrite lookup_insert_eq | by apply IH].
Qed.

Lemma setcol_lookup_other (d : DataFrame) (c c' : string) (v w : list cell) :
  c <> c' -> length v = length (rows d) ->
  Forall2 (fun (r : gmap string cell) x => r !! c' = Some x) (rows d) w ->
  Forall2 (fun (r : gmap string cell) x => r !! c' = Some x) (rows (setcol d c v)) w.
Proof.
  intros Hne Hlen H. simpl. generalize dependent v.
  induction H as [|r x l w Hrx _ IH]; intros v Hlen.
  - destruct v; [constructor | discriminate].
  - destruct v as [|y v]; [discriminate|]. injection Hlen as Hlen.
    simpl. constructor; [by rewrite lookup_insert_ne | by apply IH].
Qed.

Lemma has_column_setcol_same (d : DataFrame) (c : string) (v : list cell) :
  has_column (setcol d c v) c = true.
Proof.
  unfold has_column at 1. simpl. destruct (has_column d c) eqn:E; [exact E|].
  rewrite existsb_app. simpl. by rewrite String.eqb_refl, orb_true_r.
Qed.

Lemma setcol_id (d : DataFrame) (c : string) (v : list cell) :
  has_column d c = true ->
  Forall2 (fun (r : gmap string cell) x => r !! c = Some x) (rows d) v ->
  setcol d c v = d.
Proof.
  intros Hc H. destruct d as [cs rs]. unfold setcol. rewrite Hc. simpl in *.
  f_equal. induction H as [|r x l w Hrx _ IH]; [done|].
  simpl. by rewrite IH, insert_id.
Qed.

(** X11: [add_features] is idempotent.  Applied to its own result it
    returns that result again: the three columns are overwritten with the
    same values and no column is added. *)
Theorem add_features_idempotent (df df1 : DataFrame) :
  add_features df = Ok df1 -> add_features df1 = Ok df1.
Proof.
  unfold add_features at 1. intros H.
  apply bind_Ok in H as (v1 & H1 & H).
  apply bind_Ok in H as (v2 & H2 & H).
  apply bind_Ok in H as (v3 & H3 & [= <-]).
  set (da := setcol df "GDP_per_capita" v1) in *.
  set (db := setcol da "Child_mortality_ratio" v2) in *.
  set (dc := setcol db "Health_expenditure_per_GDP" v3).
  destruct (ratio_Ok_columns _ _ _ _ H1) as (_ & _ & L1).
  destruct (ratio_Ok_columns _ _ _ _ H2) as (_ & _ & L2).
  destruct (ratio_Ok_columns _ _ _ _ H3) as (_ & _ & L3).
  assert (E1 : ratio dc "GDP" "Population" = Ok v1).
  { unfold dc. rewrite ratio_after_setcol by done.
    unfold db. rewrite ratio_after_setcol by done.
    unfold da. by rewrite ratio_after_setcol. }
  assert (E2 : ratio dc "under-five deaths" "infant deaths" = Ok v2).
  { unfold dc. rewrite ratio_after_setcol by done.
    unfold db. by rewrite ratio_after_setcol. }
  assert (E3 : ratio dc "Total expenditure" "GDP" = Ok v3).
  { unfold dc. by rewrite ratio_after_setcol. }
  assert (S1 : setcol dc "GDP_per_capita" v1 = dc).
  { apply setcol_id.
    - unfold dc, db. rewrite !has_column_setcol by done.
      apply has_column_setcol_same.
    - unfold dc, db. do 2 (apply setcol_lookup_other; [done|done|]).
      by apply setcol_lookup. }
  assert (S2 : setcol dc "Child_mortality_ratio" v2 = dc).
  { apply setcol_id.
    - unfold dc. rewrite has_column_setcol by done. apply has_column_setcol_same.
    - unfold dc. apply setcol_lookup_other; [done|done|]. by apply setcol_lookup. }
  assert (S3 : setcol dc "Health_expenditure_per_GDP" v3 = dc).
  { apply setcol_id; [apply has_column_setcol_same | by apply setcol_lookup]. }
  unfold add_features. rewrite E1. cbn [mbind result_bind]. rewrite S1.
  rewrite E2. cbn [mbind result_bind]. rewrite S2.
  rewrite E3. cbn [mbind result_bind]. by rewrite S3.
Qed.

Lemma add_features_idempotent_witness :
  add_features (frame_or toy_new (add_features toy_new)) =
  Ok (frame_or toy_new (add_features toy_new)).
Proof.
  apply (add_features_idempotent toy_new). vm_compute. reflexivity.
Defined.

(** ** The preparation cell and the notebook *)

Lemma prepare_inv (X_train X_val test_data Xt Xv Xs : DataFrame)
    (self s : DataPreprocessor) :
  prepare X_train X_val test_data self = (Ok (Xt, Xv, Xs), s) ->
  fit X_train self = (Ok tt, s) /\
  (exists t f, transform_on s X_train = Ok t /\ add_features t = Ok f /\
               drop_column f "Country" = Ok Xt) /\
  (exists t f, transform_on s X_val = Ok t /\ add_features t = Ok f /\
               drop_column f "Country" = Ok Xv) /\
  (exists t f, transform_on s test_data = Ok t /\ add_features t = Ok f /\
               drop_column f "Country" = Ok Xs).
Proof.
  unfold prepare, fit_transform. intros H.
  apply method_bind_Ok in H as (x1 & s1 & H1 & H).
  apply method_bind_Ok in H1 as ([] & s0 & Hfit & [Ht1 ->]%transform_Ok).
  apply method_bind_Ok in H as (x2 & s2 & [Ht2 ->]%transform_Ok & H).
  apply method_bind_Ok in H as (x3 & s3 & [Ht3 ->]%transform_Ok & H).
  apply method_bind_Ok in H as (f1 & s4 & [Hf1 ->]%lift_Ok & H).
  apply method_bind_Ok in H as (f2 & s5 & [Hf2 ->]%lift_Ok & H).
  apply method_bind_Ok in H as (f3 & s6 & [Hf3 ->]%lift_Ok & H).
  apply method_bind_Ok in H as (d1 & s7 & [Hd1 ->]%lift_Ok & H).
  apply method_bind_Ok in H as (d2 & s8 & [Hd2 ->]%lift_Ok & H).
  apply method_bind_Ok in H as (d3 & s9 & [Hd3 ->]%lift_Ok & H).
  injection H as <- <- <- <-. repeat split; eauto.
Qed.

Lemma drop_column_gone (f d : DataFrame) (col : string) :
  drop_column f col = Ok d -> col ∉ columns d.
Proof.
  unfold drop_column. destruct (has_column f col); [|discriminate].
  intros [= <-]. simpl. intros Hin. apply list_elem_of_In, filter_In in Hin as [_ Hin].
  by rewrite String.eqb_refl in Hin.
Qed.

Lemma status_map_codes (c : cell) :
  status_map c = Num 0 \/ status_map c = Num 1 \/ status_map c = NaN.
Proof.
  destruct c as [x|s]; simpl; [by right; right|].
  destruct (String.eqb s "Developing"); [by left|].
  destruct (String.eqb s "Developed"); [by right; left | by right; right].
Qed.

Lemma prepared_row_cells (s : DataPreprocessor) (r r' : gmap string cell) :
  prepared_row s r r' ->
  r' !! "Country" = None /\
  (r' !! "Status" = Some (Num 0) \/ r' !! "Status" = Some (Num 1) \/
   r' !! "Status" = Some NaN).
Proof.
  intros (r1 & r2 & (ra & c & _ & _ & ->) & (rb & rc & H1 & H2 & H3) & ->).
  split; [apply lookup_delete_eq|].
  rewrite lookup_delete_ne by done.
  rewrite (feature_step_other _ _ _ "Status" _ _ H3) by done.
  rewrite (feature_step_other _ _ _ "Status" _ _ H2) by done.
  rewrite (feature_step_other _ _ _ "Status" _ _ H1) by done.
  rewrite lookup_insert_eq.
  destruct (status_map_codes c) as [-> | [-> | ->]]; auto.
Qed.

(** X12: what the preparation hands to the scaler.  In each of the three
    prepared frames the Country column is gone, from the index and from
    every row, and every Status is a number (0, 1 or NaN), never text. *)
Theorem prepare_drops_country_and_encodes_status
    (X_train X_val test_data Xt Xv Xs : DataFrame) (self s : DataPreprocessor) :
  prepare X_train X_val test_data self = (Ok (Xt, Xv, Xs), s) ->
  Forall (fun d : DataFrame =>
            ("Country" ∉ columns d) /\
            Forall (fun r : gmap string cell =>
                      r !! "Country" = None /\
                      (r !! "Status" = Some (Num 0) \/ r !! "Status" = Some (Num 1) \/
                       r !! "Status" = Some NaN))
                   (rows d))
         [Xt; Xv; Xs].
Proof.
  intros H. pose proof (prepare_Ok _ _ _ _ _ _ _ _ H) as (_ & R1 & R2 & R3).
  apply prepare_inv in H as (_ & (t1 & f1 & _ & _ & D1) & (t2 & f2 & _ & _ & D2)
                               & (t3 & f3 & _ & _ & D3)).
  assert (Hrows : forall (l l' : list (gmap string cell)),
            Forall2 (prepared_row s) l l' ->
            Forall (fun r : gmap string cell =>
                      r !! "Country" = None /\
                      (r !! "Status" = Some (Num 0) \/ r !! "Status" = Some (Num 1) \/
                       r !! "Status" = Some NaN)) l').
  { intros l l' HF. induction HF as [|r r' l l' Hr _ IH]; constructor; [|done].
    by eapply prepared_row_cells. }
  repeat constructor; eauto using drop_column_gone.
Qed.

Lemma prepare_drops_country_and_encodes_status_witness :
  Forall (fun d : DataFrame =>
            ("Country" ∉ columns d) /\
            Forall (fun r : gmap string cell =>
                      r !! "Country" = None /\
                      (r !! "Status" = Some (Num 0) \/ r !! "Status" = Some (Num 1) \/
                       r !! "Status" = Some NaN))
                   (rows d))
         [toy_prepared.1.1; toy_prepared.1.2; toy_prepared.2].
Proof.
  apply (prepare_drops_country_and_encodes_status
           (train_test_split toy_ext toy_X toy_y).1.1
           (train_test_split toy_ext toy_X toy_y).1.2
           toy_new _ _ _ new_preprocessor toy_prepared_state).
  vm_compute. reflexivity.
Defined.

(** X14: no partition leaks into another.  With the same fit portion, the
    prepared test frame does not depend on the validation frame, and the
    prepared validation frame does not depend on the test frame. *)
Theorem prepare_partitions_independent
    (X_train X_val X_val' test_data test_data' Xt Xv Xs Xt' Xv' Xs' : DataFrame)
    (self s s' : DataPreprocessor) :
  prepare X_train X_val test_data self = (Ok (Xt, Xv, Xs), s) ->
  prepare X_train X_val' test_data' self = (Ok (Xt', Xv', Xs'), s') ->
  s' = s /\ Xt' = Xt /\
  (test_data' = test_data -> Xs' = Xs) /\
  (X_val' = X_val -> Xv' = Xv).
Proof.
  intros (F1 & (t1 & f1 & T1 & A1 & D1) & (t2 & f2 & T2 & A2 & D2)
             & (t3 & f3 & T3 & A3 & D3))%prepare_inv
         (F1' & (t1' & f1' & T1' & A1' & D1') & (t2' & f2' & T2' & A2' & D2')
              & (t3' & f3' & T3' & A3' & D3'))%prepare_inv.
  assert (s' = s) as -> by congruence.
  split; [done|]. split; [congruence|]. split; intros ->; congruence.
Qed.

Lemma prepare_partitions_independent_witness :
  (result_or (toy_new, toy_new, toy_new)
     (prepare (train_test_split toy_ext toy_X toy_y).1.1 toy_complete toy_new
              new_preprocessor).1).2 = toy_prepared.2.
Proof.
  destruct (prepare_partitions_independent
              (train_test_split toy_ext toy_X toy_y).1.1
              (train_test_split toy_ext toy_X toy_y).1.2 toy_complete
              toy_new toy_new
              toy_prepared.1.1 toy_prepared.1.2 toy_prepared.2
              (result_or (toy_new, toy_new, toy_new)
                 (prepare (train_test_split toy_ext toy_X toy_y).1.1 toy_complete
                          toy_new new_preprocessor).1).1.1
              (result_or (toy_new, toy_new, toy_new)
                 (prepare (train_test_split toy_ext toy_X toy_y).1.1 toy_complete
                          toy_new new_preprocessor).1).1.2
              (result_or (toy_new, toy_new, toy_new)
                 (prepare (train_test_split toy_ext toy_X toy_y).1.1 toy_complete
                          toy_new new_preprocessor).1).2
              new_preprocessor toy_prepared_state
              (prepare (train_test_split toy_ext toy_X toy_y).1.1 toy_complete toy_new
                       new_preprocessor).2) as (_ & _ & Hxs & _).
  - vm_compute. reflexivity.
  - vm_compute. reflexivity.
  - by apply Hxs.
Defined.

(** ** [transform]: when it raises and when it returns *)

Lemma fold_impute_has_column (self : DataPreprocessor) (cols : list string)
    (data data' : DataFrame) (c : string) :
  fold_result (impute_on self) cols data = Ok data' ->
  c ∉ cols -> has_column data' c = has_column data c.
Proof.
  revert data. induction cols as [|col cols IH]; intros data; simpl.
  - by intros [= <-].
  - intros H Hnin. apply not_elem_of_cons in Hnin as [Hne Hnin].
    apply bind_Ok in H as (d1 & H1 & H2).
    rewrite (IH _ H2 Hnin). unfold impute_on in H1.
    apply bind_Ok in H1 as (v & _ & [= <-]). apply has_column_setcol. congruence.
Qed.

(** X15: on a frame without a Status column [transform] never returns,
    when Status is not itself a fitted column: it raises, and the object is
    unchanged. *)
Theorem transform_without_status_raises (x : DataFrame) (self : DataPreprocessor) :
  has_column x "Status" = false ->
  "Status" ∉ PyDict.keys (means_by_country self) ->
  exists e, transform x self = (Raise e, self).
Proof.
  intros Hc Hnin. rewrite transform_run. unfold transform_on.
  destruct (fold_result _ _ x) as [d1|e] eqn:E; [|by eexists].
  pose proof (fold_impute_has_column _ _ _ _ "Status" E Hnin) as H.
  cbn [mbind result_bind]. unfold encode_status, getcol. rewrite H, Hc. by eexists.
Qed.

Lemma transform_without_status_raises_witness :
  exists e, transform toy_no_status toy_fitted = (Raise e, toy_fitted).
Proof.
  apply (transform_without_status_raises toy_no_status toy_fitted).
  - reflexivity.
  - vm_compute. intros H. apply list_elem_of_In in H. simpl in H.
    destruct H as [H|[]]. discriminate H.
Defined.

Lemma pydict_keys_set {V W} (k : string) (v : V) (w : W)
    (d1 : PyDict.t V) (d2 : PyDict.t W) :
  PyDict.keys d1 = PyDict.keys d2 ->
  PyDict.keys (PyDict.set k v d1) = PyDict.keys (PyDict.set k w d2).
Proof.
  revert d2. induction d1 as [|[k1 v1] d1 IH]; intros [|[k2 v2] d2]; simpl;
    try discriminate; [done|].
  intros [= -> H]. destruct (String.eqb k2 k); simpl; [by rewrite H|].
  f_equal. by apply IH.
Qed.

Lemma fit_columns_aligned (d : DataFrame) (cols : list string)
    (self s : DataPreprocessor) :
  for_each cols (fit_column d) self = (Ok tt, s) ->
  PyDict.keys (means_by_country self) = PyDict.keys (global_medians self) ->
  PyDict.keys (means_by_country s) = PyDict.keys (global_medians s).
Proof.
  revert self. induction cols as [|c cols IH]; intros self.
  - by intros [= <-].
  - rewrite for_each_cons_run.
    destruct (fit_column d c self) as [[[]|e] s1] eqn:E; [|discriminate].
    intros H Hal. apply (IH s1 H).
    rewrite fit_column_run in E.
    destruct (groupby_mean d c) as [m|]; [|discriminate]. simpl in E.
    destruct (median d c) as [md|]; [|discriminate].
    injection E as <-. simpl. by apply pydict_keys_set.
Qed.

(** X16: a [fit] that returns keeps the two dictionaries aligned: if they
    had the same keys in the same order before, they have after. *)
Theorem fit_keeps_dictionaries_aligned (d : DataFrame) (self s : DataPreprocessor) :
  fit d self = (Ok tt, s) ->
  PyDict.keys (means_by_country self) = PyDict.keys (global_medians self) ->
  PyDict.keys (means_by_country s) = PyDict.keys (global_medians s).
Proof. unfold fit. apply fit_columns_aligned. Qed.

Lemma fit_keeps_dictionaries_aligned_witness :
  PyDict.keys (means_by_country toy_refitted) =
  PyDict.keys (global_medians toy_refitted).
Proof.
  apply (fit_keeps_dictionaries_aligned toy_second toy_fitted toy_refitted).
  - vm_compute. reflexivity.
  - vm_compute. reflexivity.
Defined.

Lemma mapM_total {A B} (f : A -> result B) (l : list A) :
  Forall (fun a => exists b, f a = Ok b) l -> exists l', mapM f l = Ok l'.
Proof.
  induction 1 as [|a l (b & Hb) _ (l' & IH)].
  - by exists [].
  - exists (b :: l'). apply mapM_Ok. constructor; [done | by apply mapM_Ok].
Qed.

Lemma fill_on_total (self : DataPreprocessor) (col : string) (r : gmap string cell) :
  is_Some (r !! col) -> is_Some (r !! "Country") ->
  is_Some (PyDict.get col (means_by_country self)) ->
  is_Some (PyDict.get col (global_medians self)) ->
  exists v, fill_on self col r = Ok v.
Proof.
  intros (c & Hc) (k & Hk) (ser & Hser) (med & Hmed). unfold fill_on.
  rewrite Hc. cbn [from_option mbind result_bind].
  destruct (isna c); [|by eexists].
  rewrite Hser, Hk, Hmed. by eexists.
Qed.

Lemma impute_on_total (self : DataPreprocessor) (data : DataFrame) (col : string) :
  wf_frame data -> col ∈ columns data -> "Country" ∈ columns data ->
  col ∈ PyDict.keys (means_by_country self) ->
  col ∈ PyDict.keys (global_medians self) ->
  exists data', impute_on self data col = Ok data' /\
                columns data' = columns data /\ wf_frame data'.
Proof.
  intros Hwf Hcol Hcountry Hk1 Hk2.
  apply pydict_get_keys in Hk1. apply pydict_get_keys in Hk2.
  destruct (mapM_total (fill_on self col) (rows data)) as (v & Hv).
  { eapply Forall_impl; [exact Hwf|]. intros r Hr.
    apply fill_on_total; try done; by apply Hr. }
  assert (H : impute_on self data col = Ok (setcol data col v)).
  { unfold impute_on. by rewrite Hv. }
  exists (setcol data col v). split; [done|].
  assert (Hc : columns (setcol data col v) = columns data).
  { simpl. apply has_column_elem in Hcol. by rewrite Hcol. }
  split; [done|].
  pose proof (impute_on_rows _ _ _ _ H) as Hrows.
  destruct data as [cs rs], (setcol {| columns := cs; rows := rs |} col v) as [cs' rs'].
  simpl in *. subst cs'. eapply wf_frame_rows; [|exact Hwf].
  eapply Forall2_impl; [exact Hrows|]. intros r r'. apply fill_step_dom.
Qed.

Lemma fold_impute_total (self : DataPreprocessor) (cols : list string)
    (data : DataFrame) :
  wf_frame data -> "Country" ∈ columns data ->
  (forall c, c ∈ cols -> c ∈ columns data /\
                         c ∈ PyDict.keys (means_by_country self) /\
                         c ∈ PyDict.keys (global_medians self)) ->
  exists data', fold_result (impute_on self) cols data = Ok data' /\
                columns data' = columns data /\ wf_frame data'.
Proof.
  revert data. induction cols as [|col cols IH]; intros data Hwf Hcountry Hcols.
  - by exists data.
  - destruct (Hcols col) as (H1 & H2 & H3); [by left|].
    destruct (impute_on_total self data col) as (d1 & Hd1 & Hc1 & Hwf1); try done.
    destruct (IH d1) as (d2 & Hd2 & Hc2 & Hwf2); try done.
    + by rewrite Hc1.
    + intros c Hc. rewrite Hc1. apply Hcols. by right.
    + exists d2. simpl. rewrite Hd1. cbn [mbind result_bind].
      split; [done|]. split; [congruence | done].
Qed.

(** X17: [transform] returns on every well-formed frame that has Country,
    Status and the fitted columns, when the two dictionaries of the object
    have the same keys (as after any [fit] that returned). *)
Theorem transform_returns (x : DataFrame) (self : DataPreprocessor) :
  wf_frame x ->
  "Country" ∈ columns x -> "Status" ∈ columns x ->
  (forall c, c ∈ PyDict.keys (means_by_country self) -> c ∈ columns x) ->
  PyDict.keys (means_by_country self) = PyDict.keys (global_medians self) ->
  exists x', transform x self = (Ok x', self).
Proof.
  intros Hwf Hcountry Hstatus Hcols Hal. rewrite transform_run. unfold transform_on.
  destruct (fold_impute_total self (PyDict.keys (means_by_country self)) x)
    as (d1 & Hd1 & Hc1 & Hwf1); try done.
  { intros c Hc. split; [by apply Hcols|]. split; [done | by rewrite <- Hal]. }
  rewrite Hd1. cbn [mbind result_bind].
  destruct (mapM_total (fun r : gmap string cell =>
                          from_option (KeyError "Status") (r !! "Status")) (rows d1))
    as (st & Hst).
  { eapply Forall_impl; [exact Hwf1|]. intros r Hr.
    destruct (proj1 (Hr "Status")) as (c & Hc); [by rewrite Hc1|].
    exists c. by rewrite Hc. }
  unfold encode_status, getcol.
  assert (has_column d1 "Status" = true) as ->
    by (apply has_column_elem; by rewrite Hc1).
  rewrite Hst. by eexists.
Qed.

Lemma transform_returns_witness :
  exists x', transform toy_new toy_fitted = (Ok x', toy_fitted).
Proof.
  apply (transform_returns toy_new toy_fitted).
  - exact toy_new_wf.
  - unfold toy_new, toy_columns. in_strings.
  - unfold toy_new, toy_columns. in_strings.
  - intros c Hc. vm_compute in Hc. apply list_elem_of_In in Hc. simpl in Hc.
    destruct Hc as [<-|[]]. unfold toy_new, toy_columns. in_strings.
  - vm_compute. reflexivity.
Defined.

(** X18: a fresh preprocessor fitted on [d] has an entry, in both
    dictionaries, for exactly the columns of [d] that hold a missing value. *)
Theorem fit_learns_exactly_columns_with_na
    (d : DataFrame) (s : DataPreprocessor) (col : string) :
  fit d new_preprocessor = (Ok tt, s) ->
  (col ∈ PyDict.keys (means_by_country s) <->
     col ∈ columns d /\ isna_any d col = true) /\
  (col ∈ PyDict.keys (global_medians s) <->
     col ∈ columns d /\ isna_any d col = true).
Proof.
  intros Hfit.
  assert (Hal : PyDict.keys (means_by_country s) = PyDict.keys (global_medians s))
    by (by eapply fit_columns_aligned).
  rewrite <- Hal.
  assert (col ∈ PyDict.keys (means_by_country s) <->
          col ∈ columns d /\ isna_any d col = true); [|done].
  split.
  - intros Hin. eapply fit_columns_keys in Hfit as [H|H]; [| |exact Hin].
    + by apply elem_of_nil in H.
    + unfold cols_with_na in H. apply list_elem_of_In, filter_In in H as [H1 H2].
      split; [by apply list_elem_of_In | done].
  - intros [H1 H2].
    destruct (fit_new_records d s col Hfit) as (ser & med & _ & _ & Hs & _).
    + unfold cols_with_na. apply list_elem_of_In, filter_In.
      split; [by apply list_elem_of_In | done].
    + apply pydict_get_keys. eauto.
Qed.

Lemma fit_learns_exactly_columns_with_na_witness :
  ("GDP" ∈ PyDict.keys (means_by_country toy_fitted) <->
     "GDP" ∈ columns toy_fit /\ isna_any toy_fit "GDP" = true) /\
  ("GDP" ∈ PyDict.keys (global_medians toy_fitted) <->
     "GDP" ∈ columns toy_fit /\ isna_any toy_fit "GDP" = true).
Proof.
  apply (fit_learns_exactly_columns_with_na toy_fit toy_fitted "GDP").
  vm_compute. reflexivity.
Defined.

(** ** The submission *)

(** X19: what the notebook itself does with the test rows and with the
    predictions.  When a run returns, the frame given to the scaler has one
    row per row of the test input, in the same order, each prepared from
    its own input row; and the submission has the single column Life
    expectancy and one row per value that [lgb_model.predict] returned on
    the scaled test matrix, in the order returned. *)
Theorem submission_follows_predictions
    (ext : Collaborators) (train_data test_data sub : DataFrame)
    (r2 : float) (s : DataPreprocessor) :
  run_workflow ext train_data test_data = (Ok (r2, sub), s) ->
  exists (Xs : DataFrame) (sc : scaler ext) (m : regressor ext)
         (M : Matrix) (p : list float),
    Forall2 (prepared_row s) (rows test_data) (rows Xs) /\
    scaler_transform ext sc Xs = Ok M /\
    lgb_predict ext m M = Ok p /\
    columns sub = ["Life expectancy"] /\
    rows sub = map (fun x => {[ "Life expectancy" := Num x ]}) p.
Proof.
  intros Hrun.
  apply workflow_Ok in Hrun as (X & y & Xt & Xv & Xs & _ & _ & Hp & Htp).
  apply prepare_Ok in Hp as (_ & _ & _ & Hrows).
  apply train_and_predict_Ok in Htp as (sc & m & M & p & HM & Hpred & ->).
  by exists Xs, sc, m, M, p.
Qed.

Lemma submission_follows_predictions_witness :
  exists (Xs : DataFrame) (M : Matrix) (p : list float),
    length (rows Xs) = 80%nat /\
    scaler_transform toy_ext tt Xs = Ok M /\
    rows toy_submission80 = map (fun x => {[ "Life expectancy" := Num x ]}) p.
Proof.
  destruct (submission_follows_predictions toy_ext toy_train toy_test80
              toy_submission80 0%float
              (run_workflow toy_ext toy_train toy_test80).2)
    as (Xs & sc & m & M & p & Hrows & HM & _ & _ & Hsub).
  - vm_compute. reflexivity.
  - exists Xs, M, p. destruct sc. split; [|by split].
    symmetry. exact (Forall2_length _ _ _ Hrows).
Defined.
